(** * assessorscraper: the extraction pipeline of [real_property.py] and
    [rp_tables.py], embedded in Rocq.

    The development follows the two Python modules:
    - Python values, exceptions and the state-and-exception monad in which
      the methods run;
    - the string operations the code calls ([str.strip], [str.split],
      [' '.join]) and a backtracking matcher for the regular expressions
      that appear literally in the source;
    - the element tree handed back by BeautifulSoup, with [find_all],
      attribute-style child access and [.string];
    - the extraction methods, each with its own try/except retry
      ([extractBuildings], which instantiates a class [rp_tables.py] does
      not define, comes after the others with a state of its own);
    - the theorems. *)

From Stdlib Require Import ZArith Ascii String List Lia Bool.
From Stdlib Require Import Floats.PrimFloat Numbers.Cyclic.Int63.Uint63.
From stdpp Require Import base option strings gmap.

Local Open Scope string_scope.
Local Open Scope list_scope.

(** ** Text *)

Module Text.

Definition code (c : ascii) : nat := nat_of_ascii c.

Definition between (lo hi : nat) (c : ascii) : bool :=
  (lo <=? code c)%nat && (code c <=? hi)%nat.

(** [\d] and [[0-9]] on ASCII text. *)
Definition is_digit (c : ascii) : bool := between 48 57 c.

(** [[a-zA-Z0-9]]. *)
Definition is_alnum (c : ascii) : bool :=
  between 97 122 c || between 65 90 c || between 48 57 c.

(** [.] without DOTALL: every character but the line feed. *)
Definition is_dot (c : ascii) : bool := negb (code c =? 10)%nat.

(** The characters [str.split()] and [str.strip()] treat as white space
    (the ASCII part of [str.isspace]). *)
Definition is_space (c : ascii) : bool :=
  between 9 13 c || between 28 32 c.

Definition is_blank (c : ascii) : bool := (code c =? 32)%nat.

(** The characters of the words [str.split()] returns. *)
Definition in_word (c : ascii) : bool := negb (is_space c).

Fixpoint all (p : ascii -> bool) (s : string) : bool :=
  match s with
  | EmptyString => true
  | String c s' => p c && all p s'
  end.

Fixpoint count (p : ascii -> bool) (s : string) : nat :=
  match s with
  | EmptyString => 0
  | String c s' => (if p c then 1 else 0) + count p s'
  end.

(** [s.startswith(p)], returning what follows the prefix. *)
Fixpoint strip_prefix (p s : string) : option string :=
  match p, s with
  | EmptyString, _ => Some s
  | String a p', String b s' =>
      if Ascii.eqb a b then strip_prefix p' s' else None
  | String _ _, EmptyString => None
  end.

Fixpoint lstrip (s : string) : string :=
  match s with
  | String c s' => if is_space c then lstrip s' else s
  | EmptyString => EmptyString
  end.

Fixpoint rstrip (s : string) : string :=
  match s with
  | EmptyString => EmptyString
  | String c s' =>
      match rstrip s' with
      | EmptyString => if is_space c then EmptyString else String c EmptyString
      | r => String c r
      end
  end.

(** [s.strip()] *)
Definition strip (s : string) : string := rstrip (lstrip s).

(** [s.split()]: the maximal runs of non-space characters, in order.
    [cur] is the run being read, reversed. *)
Fixpoint split_go (cur : option string) (s : string) : list string :=
  match s with
  | EmptyString =>
      match cur with Some w => [String.rev w] | None => [] end
  | String c s' =>
      if is_space c
      then match cur with
           | Some w => String.rev w :: split_go None s'
           | None => split_go None s'
           end
      else split_go (Some (String c (default EmptyString cur))) s'
  end.

Definition split (s : string) : list string := split_go None s.

(** [sep.join(parts)] *)
Fixpoint join (sep : string) (parts : list string) : string :=
  match parts with
  | [] => EmptyString
  | [w] => w
  | w :: rest => w +:+ sep +:+ join sep rest
  end.

(** [' '.join(s.split())], the white-space collapsing used for four of the
    cells. *)
Definition collapse (s : string) : string := join " " (split s).

End Text.

(** ** Regular expressions

    The patterns of the source use literals, character classes, greedy
    [*] and [+] over one class, capturing groups, concatenation and (in the
    pattern [datetime.strptime] builds) ordered alternation.  [exec] is the
    backtracking matcher of Python's [re]: greedy repetitions try the
    longest run first, alternatives are tried left to right, and the
    continuation [k] decides whether what follows can still match. *)

Module Re.

Inductive regex : Type :=
| Lit (l : string)
| Cls (p : ascii -> bool)
| Star (p : ascii -> bool)
| Plus (p : ascii -> bool)
| Grp (r : regex)
| Cat (r1 r2 : regex)
| Alt (r1 r2 : regex).

Section Exec.
Context {R : Type}.

(** A continuation receives the text just matched, the groups captured
    inside it and the rest of the subject. *)
Definition cont : Type := string -> list string -> string -> option R.

Fixpoint star (p : ascii -> bool) (s : string)
         (k : string -> string -> option R) : option R :=
  match s with
  | String c s' =>
      if p c
      then match star p s' (fun u rest => k (String c u) rest) with
           | Some x => Some x
           | None => k EmptyString s
           end
      else k EmptyString s
  | EmptyString => k EmptyString s
  end.

Fixpoint exec (r : regex) (s : string) (k : cont) : option R :=
  match r with
  | Lit l =>
      match Text.strip_prefix l s with
      | Some rest => k l [] rest
      | None => None
      end
  | Cls p =>
      match s with
      | String c s' => if p c then k (String c EmptyString) [] s' else None
      | EmptyString => None
      end
  | Star p => star p s (fun u rest => k u [] rest)
  | Plus p =>
      match s with
      | String c s' =>
          if p c then star p s' (fun u rest => k (String c u) [] rest)
          else None
      | EmptyString => None
      end
  | Grp r1 => exec r1 s (fun u gs rest => k u (u :: gs) rest)
  | Cat r1 r2 =>
      exec r1 s (fun u1 g1 rest1 =>
        exec r2 rest1 (fun u2 g2 rest2 => k (u1 +:+ u2) (g1 ++ g2) rest2))
  | Alt r1 r2 =>
      match exec r1 s k with
      | Some x => Some x
      | None => exec r2 s k
      end
  end.
End Exec.

(** The outcome of one successful match: the text matched, its groups and
    what is left of the subject. *)
Record found : Type := Found { whole : string; groups : list string; rest : string }.

(** [re.match(r, s)]: anchored at the start of [s]. *)
Definition match_ (r : regex) (s : string) : option found :=
  exec r s (fun u gs t => Some (Found u gs t)).

(** [m.group(i)] for [i >= 1]. *)
Definition group (m : found) (i : nat) : option string :=
  match i with O => Some (whole m) | S j => groups m !! j end.

(** [re.findall(r, s)]: scan left to right, resume after each match (one
    character further after an empty one).  [fuel] bounds the number of
    scan positions. *)
Fixpoint findall_from (fuel : nat) (r : regex) (s : string) : list (list string) :=
  match fuel with
  | O => []
  | S fuel' =>
      let next := match s with String _ s' => findall_from fuel' r s' | EmptyString => [] end in
      match match_ r s with
      | Some m =>
          groups m ::
            match whole m with
            | EmptyString => next
            | String _ _ => findall_from fuel' r (rest m)
            end
      | None => next
      end
  end.

Definition findall (r : regex) (s : string) : list (list string) :=
  findall_from (S (String.length s)) r s.

(** What it means for a text to be matched by a pattern, with the groups
    it captures. *)
Inductive matches : regex -> string -> list string -> Prop :=
| m_lit l : matches (Lit l) l []
| m_cls p c : p c = true -> matches (Cls p) (String c EmptyString) []
| m_star p u : Text.all p u = true -> matches (Star p) u []
| m_plus p c u : p c = true -> Text.all p u = true -> matches (Plus p) (String c u) []
| m_grp r u gs : matches r u gs -> matches (Grp r) u (u :: gs)
| m_cat r1 r2 u1 u2 g1 g2 :
    matches r1 u1 g1 -> matches r2 u2 g2 -> matches (Cat r1 r2) (u1 +:+ u2) (g1 ++ g2)
| m_alt_l r1 r2 u gs : matches r1 u gs -> matches (Alt r1 r2) u gs
| m_alt_r r1 r2 u gs : matches r2 u gs -> matches (Alt r1 r2) u gs.

End Re.

(** ** Python values, exceptions and effects *)

Module Py.

(** [datetime.datetime]; [strptime] with a date-only format leaves the
    time of day at midnight, so only the calendar part is kept. *)
Record datetime : Type := Datetime { dt_year : Z; dt_month : Z; dt_day : Z }.

Inductive value : Type :=
| VNone
| VInt (z : Z)
| VFloat (f : float)
| VStr (s : string)
| VDatetime (d : datetime).

(** The exception classes that occur.  The first five are the classes
    named in the [except] clauses of both modules. *)
Inductive exn : Type :=
| ConnectionError
| TimeoutError
| NewConnectionError
| MaxRetryError
| RequestsConnectionError
| IndexError
| KeyError
| AttributeError
| TypeError
| ValueError
| OtherError (name : string).

(** [except (ConnectionError, TimeoutError, urllib3.exceptions.NewConnectionError,
    urllib3.exceptions.MaxRetryError, requests.ConnectionError) as e] *)
Definition caught (e : exn) : bool :=
  match e with
  | ConnectionError | TimeoutError | NewConnectionError
  | MaxRetryError | RequestsConnectionError => true
  | _ => false
  end.

(** A dictionary with string keys: [kwargs], a row of a table list. *)
Abbreviation dict := (gmap string value).

(** Outbound calls, with the identifier they are made for.  [HttpGet p]
    is [requests.get(".../AN-R.asp?PROPERTYID=" + str(p))]. *)
Inductive call : Type :=
| HttpGet (p : value)
| GetValuationList (p : value)
| GetTransactionList (p : value)
| GetPermitList (p : value).

(** Lines written by [print]. *)
Inductive line : Type :=
| ExceptionCaught (e : exn)      (* "Exception caught: " + str(e) *)
| Printed (v : value).

(** What a run leaves behind outside the objects: the calls it made, in
    order, what it printed and how long it slept. *)
Record world : Type := World {
  trace : list call;
  stdout : list line;
  slept : list Z
}.

Definition quiet : world := World [] [] [].

Inductive outcome (A : Type) : Type :=
| Return (a : A)
| Raise (e : exn)
| OutOfFuel.
Arguments Return {A} a.
Arguments Raise {A} e.
Arguments OutOfFuel {A}.

(** Statements run in a state [S]; an exception keeps the state reached
    so far, as assignments made before a [raise] stay made. *)
Definition M (S A : Type) : Type := S -> S * outcome A.

Definition ret {S A} (a : A) : M S A := fun s => (s, Return a).
Definition raise {S A} (e : exn) : M S A := fun s => (s, Raise e).
Definition diverge {S A} : M S A := fun s => (s, OutOfFuel).

Definition bind {S A B} (m : M S A) (f : A -> M S B) : M S B :=
  fun s =>
    match m s with
    | (s', Return a) => f a s'
    | (s', Raise e) => (s', Raise e)
    | (s', OutOfFuel) => (s', OutOfFuel)
    end.

Definition get {S} : M S S := fun s => (s, Return s).
Definition modify {S} (f : S -> S) : M S unit := fun s => (f s, Return tt).

(** The body of a [try]: an exception becomes a value the [except]
    clauses can inspect. *)
Definition attempt {S A} (m : M S A) : M S (exn + A) :=
  fun s =>
    match m s with
    | (s', Return a) => (s', Return (inr a))
    | (s', Raise e) => (s', Return (inl e))
    | (s', OutOfFuel) => (s', OutOfFuel)
    end.

(** A pure step that may raise. *)
Definition lift {S A} (r : exn + A) : M S A :=
  match r with inl e => raise e | inr a => ret a end.

(** [for x in xs: acc.append(f(x))] *)
Fixpoint for_each {S A B} (f : A -> M S B) (xs : list A) : M S (list B) :=
  match xs with
  | [] => ret []
  | x :: xs' => bind (f x) (fun y => bind (for_each f xs') (fun ys => ret (y :: ys)))
  end.

(** [d[key]] *)
Definition getitem {S} (d : dict) (key : string) : M S value :=
  match d !! key with
  | Some v => ret v
  | None => raise KeyError
  end.

(** [xs[i]] on a list, for a non-negative constant [i]. *)
Definition index {S A} (xs : list A) (i : nat) : M S A :=
  match xs !! i with
  | Some x => ret x
  | None => raise IndexError
  end.

(** [x * 43560] for the values [helpers.get_float] can hand back. *)
Definition times_43560 {S} (x : option float) : M S value :=
  match x with
  | Some f => ret (VFloat (PrimFloat.mul f (PrimFloat.of_uint63 43560)))
  | None => raise TypeError
  end.

End Py.

Declare Scope py_scope.
Delimit Scope py_scope with py.
Notation "'let!' x ':=' m 'in' k" := (Py.bind m (fun x => k))
  (at level 10, x name, m at level 100, k at level 200) : py_scope.
Notation "m ';;' k" := (Py.bind m (fun _ => k))
  (at level 100, k at level 200, right associativity) : py_scope.

Local Open Scope py_scope.

(** ** [datetime.strptime(text, "%m/%d/%Y")]

    The library turns the format into a pattern (one named group per
    directive), matches it at the start of the text, refuses text that is
    left over, converts the groups with [int] and builds the date, which
    refuses a day the month does not have.  Every refusal is a
    [ValueError]. *)

Module Strptime.
Import Re.

Definition range (lo hi : ascii) : regex :=
  Cls (Text.between (Text.code lo) (Text.code hi)).

Definition digit : regex := Cls Text.is_digit.

(** [%m]: [1[0-2]|0[1-9]|[1-9]] *)
Definition directive_m : regex :=
  Alt (Cat (Lit "1") (range "0" "2"))
      (Alt (Cat (Lit "0") (range "1" "9")) (range "1" "9")).

(** [%d]: [3[0-1]|[1-2]\d|0[1-9]|[1-9]| [1-9]] *)
Definition directive_d : regex :=
  Alt (Cat (Lit "3") (range "0" "1"))
      (Alt (Cat (range "1" "2") digit)
           (Alt (Cat (Lit "0") (range "1" "9"))
                (Alt (range "1" "9") (Cat (Lit " ") (range "1" "9"))))).

(** [%Y]: [\d\d\d\d] *)
Definition directive_Y : regex := Cat digit (Cat digit (Cat digit digit)).

(** The pattern for ["%m/%d/%Y"]. *)
Definition format_regex : regex :=
  Cat (Grp directive_m)
      (Cat (Lit "/") (Cat (Grp directive_d) (Cat (Lit "/") (Grp directive_Y)))).

Definition digit_value (c : ascii) : Z := Z.of_nat (Text.code c) - 48.

Fixpoint digits_value (acc : Z) (s : string) : Z :=
  match s with
  | EmptyString => acc
  | String c s' => digits_value (10 * acc + digit_value c) s'
  end.

(** [int(text)] on the captured groups: digits, after optional white space. *)
Definition int_ (s : string) : Z := digits_value 0 (Text.lstrip s).

Definition is_leap (y : Z) : bool :=
  ((y mod 4 =? 0) && negb (y mod 100 =? 0) || (y mod 400 =? 0))%Z.

Definition days_in_month (y m : Z) : Z :=
  if (m =? 2)%Z then (if is_leap y then 29 else 28)
  else if ((m =? 4) || (m =? 6) || (m =? 9) || (m =? 11))%Z then 30
  else 31.

(** The checks of the [date] constructor. *)
Definition valid_date (y m d : Z) : bool :=
  ((1 <=? y) && (y <=? 9999) && (1 <=? m) && (m <=? 12)
   && (1 <=? d) && (d <=? days_in_month y m))%Z.

Definition parse (s : string) : Py.exn + Py.datetime :=
  match match_ format_regex s with
  | Some (Found _ [m; d; y] EmptyString) =>
      if valid_date (int_ y) (int_ m) (int_ d)
      then inr (Py.Datetime (int_ y) (int_ m) (int_ d))
      else inl Py.ValueError             (* day is out of range for month *)
  | Some _ => inl Py.ValueError          (* unconverted data remains *)
  | None => inl Py.ValueError            (* time data does not match format *)
  end.

(** [datetime.strptime(v, "%m/%d/%Y")]; the first argument must be a [str]. *)
Definition strptime {S} (v : Py.value) : Py.M S Py.value :=
  match v with
  | Py.VStr s =>
      match parse s with
      | inr d => Py.ret (Py.VDatetime d)
      | inl e => Py.raise e
      end
  | _ => Py.raise Py.TypeError
  end.

End Strptime.

(** ** The element tree of BeautifulSoup *)

Module Soup.

#[warnings="-register-all"]
Inductive node : Type :=
| Text (s : string)                                           (* NavigableString *)
| Tag (name : string) (attrs : list (string * string)) (contents : list node).

(** Everything below a node, in document order. *)
Fixpoint descendants (n : node) : list node :=
  match n with
  | Text _ => []
  | Tag _ _ cs =>
      (fix below (cs : list node) : list node :=
         match cs with
         | [] => []
         | c :: cs' => c :: descendants c ++ below cs'
         end) cs
  end.

Definition is_tag (name : string) (n : node) : bool :=
  match n with
  | Tag name' _ _ => String.eqb name name'
  | Text _ => false
  end.

(** [n.find_all(name)] *)
Definition find_all (name : string) (n : node) : list node :=
  List.filter (is_tag name) (descendants n).

(** [n.name], as in [n.tbody], [n.font], [n.a], [n.input]: the first
    descendant with that tag, or None. *)
Definition child (name : string) (n : node) : option node :=
  head (find_all name n).

(** [n.string]: the only child if it is text, the [.string] of the only
    child if it is a tag, None otherwise. *)
Fixpoint string_ (n : node) : option string :=
  match n with
  | Text s => Some s
  | Tag _ _ [c] => string_ c
  | Tag _ _ _ => None
  end.

(** [n[key]] *)
Definition attribute (key : string) (n : node) : option string :=
  match n with
  | Tag _ attrs _ => snd <$> List.find (fun kv => String.eqb key (fst kv)) attrs
  | Text _ => None
  end.

Section Access.
Context {S : Type}.

(** [x.name] where [x] may be None. *)
Definition dot (name : string) (x : option node) : Py.M S (option node) :=
  match x with
  | Some n => Py.ret (child name n)
  | None => Py.raise Py.AttributeError
  end.

(** [x.string] *)
Definition dot_string (x : option node) : Py.M S (option string) :=
  match x with
  | Some n => Py.ret (string_ n)
  | None => Py.raise Py.AttributeError
  end.

(** [x.find_all(name)] *)
Definition dot_find_all (name : string) (x : option node) : Py.M S (list node) :=
  match x with
  | Some n => Py.ret (find_all name n)
  | None => Py.raise Py.AttributeError
  end.

(** [t.strip()] where [t] may be None. *)
Definition dot_strip (t : option string) : Py.M S string :=
  match t with
  | Some s => Py.ret (Text.strip s)
  | None => Py.raise Py.AttributeError
  end.

(** [' '.join(t.split())] where [t] may be None. *)
Definition dot_collapse (t : option string) : Py.M S string :=
  match t with
  | Some s => Py.ret (Text.collapse s)
  | None => Py.raise Py.AttributeError
  end.

(** [x[key]] where [x] may be None. *)
Definition subscript (key : string) (x : option node) : Py.M S string :=
  match x with
  | None => Py.raise Py.TypeError        (* 'NoneType' object is not subscriptable *)
  | Some n =>
      match attribute key n with
      | Some v => Py.ret v
      | None => Py.raise Py.KeyError
      end
  end.

End Access.
End Soup.

(** ** Collaborators

    What the two modules call but do not define: the HTTP client, the
    row-list extractors of [get_tables], the lxml parser behind
    [BeautifulSoup(html, features="lxml")] and the two converters of
    [helpers].  A network answer depends on the identifier asked for and on
    how many outbound calls were made before it. *)

Record collaborators : Type := Collaborators {
  (** [requests.get(url).text] for the page of an identifier. *)
  requests_get : nat -> Py.value -> Py.exn + string;
  (** Modelled from the spec: the row-list extractors of [get_tables] are
      not under src/; given an identifier each returns the rows of its
      table, one dictionary per row and in the order of the table, or raises
      (a network failure among others). *)
  get_valuation_list : nat -> Py.value -> Py.exn + list Py.dict;
  get_transaction_list : nat -> Py.value -> Py.exn + list Py.dict;
  get_permit_list : nat -> Py.value -> Py.exn + list Py.dict;
  (** [BeautifulSoup(html, features="lxml")]: the tree of a markup text. *)
  BeautifulSoup : string -> Soup.node;
  (** Modelled from the spec: [helpers.get_int] is not under src/; it
      returns an integer, or None when the text cannot be converted, and
      does not raise. *)
  get_int : string -> option Z;
  (** Modelled from the spec: [helpers.get_float] is not under src/; same
      leniency as [get_int]. *)
  get_float : string -> option float
}.

Module Net.
Import Py.

Definition record_call (c : call) (w : world) : world :=
  World (trace w ++ [c]) (stdout w) (slept w).

(** One outbound call: it is recorded, then answers or raises. *)
Definition outbound {A} (c : call) (answer : nat -> exn + A) : M world A :=
  fun w => lift (answer (length (trace w))) (record_call c w).

(** [print(x)] *)
Definition print (l : line) : M world unit :=
  modify (fun w => World (trace w) (stdout w ++ [l]) (slept w)).

(** [time.sleep(t)] *)
Definition sleep (t : Z) : M world unit :=
  modify (fun w => World (trace w) (stdout w) (slept w ++ [t])).

(** Run a step on the world next to an object. *)
Definition in_world {X A} (m : M world A) : M (X * world) A :=
  fun s =>
    match m (snd s) with
    | (w', r) => ((fst s, w'), r)
    end.

End Net.

(** ** rp_tables.py *)

Module ValuationHistory.
Import Py Net.

Record t : Type := Build {
  year : value;
  market_value : value;
  taxable_market_value : value;
  gross_assessed : value;
  exemption : value;
  net_assessed : value;
  millage : value;
  tax : value;
  tax_savings : value
}.

(** The body of the [for] loop: one entry from one row. *)
Definition of_row {S} (d : dict) : M S t :=
  let! v_year := getitem d "year" in
  let! v_market_value := getitem d "market_value" in
  let! v_taxable_market_value := getitem d "taxable_market_value" in
  let! v_gross_assessed := getitem d "gross_assessed" in
  let! v_exemption := getitem d "exemption" in
  let! v_net_assessed := getitem d "net_assessed" in
  let! v_millage := getitem d "millage" in
  let! v_tax := getitem d "tax" in
  let! v_tax_savings := getitem d "tax_savings" in
  ret (Build v_year v_market_value v_taxable_market_value v_gross_assessed
             v_exemption v_net_assessed v_millage v_tax v_tax_savings).

Section Extract.
Context (E : collaborators).

(** [ValuationHistory.extract(propertyid)]; [fuel] bounds the nesting of
    the recursive retry. *)
Fixpoint extract (fuel : nat) (propertyid : value) {struct fuel} : M world (list t) :=
  let! r := attempt (outbound (GetValuationList propertyid)
                              (fun n => get_valuation_list E n propertyid)) in
  match r with
  | inl e =>
      if caught e then
        print (ExceptionCaught e) ;;
        sleep 10 ;;
        match fuel with
        | O => diverge
        | S fuel' => extract fuel' propertyid
        end
      else raise e
  | inr valuation_dicts => for_each of_row valuation_dicts
  end.

End Extract.
End ValuationHistory.

Module DeedTransaction.
Import Py Net.

Record t : Type := Build {
  date : value;
  type : value;
  book : value;
  page : value;
  price : value;
  grantor : value;
  grantee : value
}.

Definition of_row {S} (d : dict) : M S t :=
  let! text := getitem d "date" in
  let! v_date := Strptime.strptime text in
  let! v_type := getitem d "type" in
  let! v_book := getitem d "book" in
  let! v_page := getitem d "page" in
  let! v_price := getitem d "price" in
  let! v_grantor := getitem d "grantor" in
  let! v_grantee := getitem d "grantee" in
  ret (Build v_date v_type v_book v_page v_price v_grantor v_grantee).

Section Extract.
Context (E : collaborators).

(** [DeedTransaction.extract(propertyid)] *)
Fixpoint extract (fuel : nat) (propertyid : value) {struct fuel} : M world (list t) :=
  let! r := attempt (outbound (GetTransactionList propertyid)
                              (fun n => get_transaction_list E n propertyid)) in
  match r with
  | inl e =>
      if caught e then
        print (ExceptionCaught e) ;;
        sleep 10 ;;
        match fuel with
        | O => diverge
        | S fuel' => extract fuel' propertyid
        end
      else raise e
  | inr transaction_dicts => for_each of_row transaction_dicts
  end.

End Extract.
End DeedTransaction.

Module BuildingPermit.
Import Py Net.

Record t : Type := Build {
  date : value;
  permit_number : value;
  provided_by : value;
  building_number : value;
  description : value;
  estimated_cost : value;
  status : value
}.

Definition of_row {S} (d : dict) : M S t :=
  let! text := getitem d "date" in
  let! v_date := Strptime.strptime text in
  let! v_permit_number := getitem d "permit_number" in
  let! v_provided_by := getitem d "provided_by" in
  let! v_building_number := getitem d "building_number" in
  let! v_description := getitem d "description" in
  let! v_estimated_cost := getitem d "estimated_cost" in
  let! v_status := getitem d "status" in
  ret (Build v_date v_permit_number v_provided_by v_building_number
             v_description v_estimated_cost v_status).

Section Extract.
Context (E : collaborators).

(** [BuildingPermit.extract(propertyid)] *)
Fixpoint extract (fuel : nat) (propertyid : value) {struct fuel} : M world (list t) :=
  let! r := attempt (outbound (GetPermitList propertyid)
                              (fun n => get_permit_list E n propertyid)) in
  match r with
  | inl e =>
      if caught e then
        print (ExceptionCaught e) ;;
        sleep 10 ;;
        match fuel with
        | O => diverge
        | S fuel' => extract fuel' propertyid
        end
      else raise e
  | inr permit_dicts => for_each of_row permit_dicts
  end.

End Extract.
End BuildingPermit.

(** ** real_property.py *)

Module RealProperty.
Import Py Net.

(** A [RealProperty] object: its scalar attributes by name (a column that
    was never assigned reads as None) and the [valuations] relationship. *)
Record t : Type := Build {
  attrs : gmap string value;
  valuations : list ValuationHistory.t
}.

(** [RealProperty()] *)
Definition fresh : t := Build ∅ [].

(** [self.name] *)
Definition getattr (name : string) (self : t) : value :=
  default VNone (attrs self !! name).

Abbreviation state := (t * world)%type.

(** [self.name = v] *)
Definition setattr (name : string) (v : value) : M state unit :=
  modify (fun s => (Build (<[name := v]> (attrs (fst s))) (valuations (fst s)), snd s)).

Definition set_valuations (l : list ValuationHistory.t) : M state unit :=
  modify (fun s => (Build (attrs (fst s)) l, snd s)).

Definition of_int (x : option Z) : value :=
  match x with Some z => VInt z | None => VNone end.

Definition of_float (x : option float) : value :=
  match x with Some f => VFloat f | None => VNone end.

(** The first land-size pattern: a greedy, possibly empty run of [.] as
    group 1, then the text " Square Feet". *)
Definition square_feet_re : Re.regex :=
  Re.Cat (Re.Grp (Re.Star Text.is_dot)) (Re.Lit " Square Feet").

(** The second land-size pattern: the same group, then " Acres". *)
Definition acres_re : Re.regex :=
  Re.Cat (Re.Grp (Re.Star Text.is_dot)) (Re.Lit " Acres").

(** The pattern "(.+) Block ([a-zA-Z0-9]+) Lot ([a-zA-Z0-9]+)". *)
Definition block_lot_re : Re.regex :=
  Re.Cat (Re.Grp (Re.Plus Text.is_dot))
    (Re.Cat (Re.Lit " Block ")
       (Re.Cat (Re.Grp (Re.Plus Text.is_alnum))
          (Re.Cat (Re.Lit " Lot ") (Re.Grp (Re.Plus Text.is_alnum))))).

Section Paths.
Context {S : Type}.

(** [x.a.b...] for a chain of tag names. *)
Fixpoint follow (path : list string) (x : option Soup.node) : M S (option Soup.node) :=
  match path with
  | [] => ret x
  | name :: path' => let! y := Soup.dot name x in follow path' y
  end.

(** [cur_tds[i].a.b.string.strip()] *)
Definition stripped (cur_tds : list Soup.node) (i : nat) (path : list string) : M S string :=
  let! td := index cur_tds i in
  let! x := follow path (Some td) in
  let! text := Soup.dot_string x in
  Soup.dot_strip text.

(** [' '.join(cur_tds[i].a.b.string.split())] *)
Definition collapsed (cur_tds : list Soup.node) (i : nat) (path : list string) : M S string :=
  let! td := index cur_tds i in
  let! x := follow path (Some td) in
  let! text := Soup.dot_string x in
  Soup.dot_collapse text.

(** [rows[i].find_all('td')] *)
Definition cells (rows : list Soup.node) (i : nat) : M S (list Soup.node) :=
  let! tr := index rows i in
  ret (Soup.find_all "td" tr).

(** [m.group(1)] *)
Definition group_1 (m : Re.found) : M S string :=
  match Re.group m 1 with
  | Some g => ret g
  | None => raise IndexError
  end.

End Paths.

Section Methods.
Context (E : collaborators).

(** Lines 115-119: the land size, in square feet, from the collapsed text
    of the cell. *)
Definition land_size_of (land_size_str : string) : M state unit :=
  match Re.match_ square_feet_re land_size_str with
  | Some m =>
      let! g := group_1 m in
      setattr "land_size" (of_float (get_float E g))
  | None =>
      match Re.match_ acres_re land_size_str with
      | Some m =>
          let! g := group_1 m in
          let land_size_acres := get_float E g in
          let! sqft := times_43560 land_size_acres in
          setattr "land_size" sqft
      | None => ret tt
      end
  end.

(** Lines 133-135: subdivision, block and lot from the collapsed text of the
    link. *)
Definition subdivision_block_lot (subdivision_str : string) : M state unit :=
  let! first := index (Re.findall block_lot_re subdivision_str) 0 in
  match first with
  | [subdivision; block; lot] =>
      setattr "subdivision" (VStr subdivision) ;;
      setattr "block" (VStr block) ;;
      setattr "lot" (VStr lot)
  | _ => raise ValueError
  end.

(** Lines 80-135: everything after the markup is at hand. *)
Definition populate (kwargs : dict) (html : value) : M state value :=
  let! markup := match html with VStr s => ret s | _ => raise TypeError end in
  let mySoup := BeautifulSoup E markup in
  let! table := index (Soup.find_all "table" mySoup) 3 in
  let! tbody := Soup.dot "tbody" (Some table) in
  let! rows := Soup.dot_find_all "tr" tbody in
  let! propertyid := getitem kwargs "propertyid" in
  setattr "propertyid" propertyid ;;
  (* row 0 *)
  let! cur_tds := cells rows 0 in
  let! account_number := stripped cur_tds 0 ["font"; "font"] in
  setattr "account_number" (VStr account_number) ;;
  let! property_type := stripped cur_tds 1 ["font"; "font"] in
  setattr "property_type" (VStr property_type) ;;
  let! location := stripped cur_tds 4 ["font"] in
  setattr "location" (VStr location) ;;
  (* row 1 *)
  let! cur_tds := cells rows 1 in
  let! building_name_occupant := stripped cur_tds 1 ["font"] in
  setattr "building_name_occupant" (VStr building_name_occupant) ;;
  let! city := stripped cur_tds 3 ["font"] in
  setattr "city" (VStr city) ;;
  (* row 2 *)
  let! cur_tds := cells rows 2 in
  let! owner_name_1 := stripped cur_tds 1 ["font"] in
  setattr "owner_name_1" (VStr owner_name_1) ;;
  let! quarter_section := stripped cur_tds 3 ["font"] in
  setattr "quarter_section" (of_int (get_int E quarter_section)) ;;
  (* row 3 *)
  let! cur_tds := cells rows 3 in
  let! owner_name_2 := stripped cur_tds 1 ["font"] in
  setattr "owner_name_2" (VStr owner_name_2) ;;
  let! parent_acct := stripped cur_tds 3 ["font"] in
  setattr "parent_acct" (VStr parent_acct) ;;
  (* row 4 *)
  let! cur_tds := cells rows 4 in
  let! billing_address_1 := stripped cur_tds 1 ["font"] in
  setattr "billing_address_1" (VStr billing_address_1) ;;
  let! td := index cur_tds 3 in
  let! input := Soup.dot "input" (Some td) in
  let! tax_district := Soup.subscript "value" input in
  setattr "tax_district" (VStr tax_district) ;;
  (* row 5 *)
  let! cur_tds := cells rows 5 in
  let! billing_address_2 := stripped cur_tds 1 ["font"] in
  setattr "billing_address_2" (VStr billing_address_2) ;;
  let! school_system := stripped cur_tds 3 ["font"] in
  setattr "school_system" (VStr school_system) ;;
  (* row 6 *)
  let! cur_tds := cells rows 6 in
  let! city_state_zip := collapsed cur_tds 1 ["font"] in
  setattr "city_state_zip" (VStr city_state_zip) ;;
  let! land_size_str := collapsed cur_tds 3 ["font"] in
  setattr "land_size_str" (VStr land_size_str) ;;
  land_size_of land_size_str ;;
  let! self := get in
  in_world (print (Printed (getattr "land_size" (fst self)))) ;;
  (* row 7 *)
  let! cur_tds := cells rows 7 in
  let! td := index cur_tds 1 in
  let! font := index (Soup.find_all "font" td) 1 in
  let! text := Soup.dot_string (Some font) in
  let! land_value_str := Soup.dot_strip text in
  setattr "land_value" (of_int (get_int E land_value_str)) ;;
  (* row 9 *)
  let! cur_tds := cells rows 9 in
  let! quarter_section_description := collapsed cur_tds 0 ["font"] in
  setattr "quarter_section_description" (VStr quarter_section_description) ;;
  let! subdivision_str := collapsed cur_tds 1 ["a"] in
  subdivision_block_lot subdivision_str ;;
  ret VNone.

(** [self.extractRealPropertyData] with its keyword arguments; [fuel] bounds the nesting of
    the recursive retry. *)
Fixpoint extractRealPropertyData (fuel : nat) (kwargs : dict) {struct fuel} : M state value :=
  match kwargs !! "property_html" with
  | Some html => populate kwargs html
  | None =>
      match kwargs !! "propertyid" with
      | Some propertyid =>
          let! r := attempt (in_world (outbound (HttpGet propertyid)
                                                (fun n => requests_get E n propertyid))) in
          match r with
          | inr text => populate kwargs (VStr text)
          | inl e =>
              if caught e then
                in_world (print (ExceptionCaught e)) ;;
                in_world (sleep 10) ;;
                match fuel with
                | O => diverge
                | S fuel' => extractRealPropertyData fuel' {[ "propertyid" := propertyid ]}
                end
              else raise e
          end
      | None => ret VNone
      end
  end.

(** Lines 152-166: the entries built from the rows replace the
    [valuations] of the object. *)
Definition store_valuations (valuation_dicts : list dict) : M state value :=
  let! valuationList := for_each ValuationHistory.of_row valuation_dicts in
  set_valuations valuationList ;;
  ret VNone.

(** [self.extractValuationHistory(propertyid)] *)
Fixpoint extractValuationHistory (fuel : nat) (propertyid : value) {struct fuel} : M state value :=
  let! r := attempt (in_world (outbound (GetValuationList propertyid)
                                        (fun n => get_valuation_list E n propertyid))) in
  match r with
  | inl e =>
      if caught e then
        in_world (print (ExceptionCaught e)) ;;
        in_world (sleep 10) ;;
        match fuel with
        | O => diverge
        | S fuel' => extractValuationHistory fuel' propertyid
        end
      else raise e
  | inr valuation_dicts => store_valuations valuation_dicts
  end.

End Methods.
End RealProperty.

(** ** Sample data

    A property page with the layout the positional addressing expects, a
    network that fails twice before it answers, and simple stand-ins for the
    collaborators; used to evaluate the methods on concrete inputs. *)

Module Sample.
Import Py.

Definition el (name : string) (contents : list Soup.node) : Soup.node :=
  Soup.Tag name [] contents.

Definition font (s : string) : Soup.node := el "font" [Soup.Text s].

Definition td (contents : list Soup.node) : Soup.node := el "td" contents.

Definition tr (cells : list Soup.node) : Soup.node := el "tr" cells.

Definition label_value (label : string) (value : Soup.node) : list Soup.node :=
  [td [font label]; td [value]].

Definition rows (land_size subdivision : string) : list Soup.node :=
  [ tr [td [el "font" [font " R123456789 "]]; td [el "font" [font "Residential"]];
        td []; td []; td [font " 100 N MAIN ST "]];
    tr (label_value "Building Name" (font "SMITH HOUSE") ++ label_value "City" (font "EDMOND"));
    tr (label_value "Owner Name 1" (font "SMITH JOHN") ++ label_value "1/4 section #" (font "1234"));
    tr (label_value "Owner Name 2" (font "SMITH JANE") ++ label_value "Parent Acct" (font "-"));
    tr (label_value "Billing Address 1" (font "PO BOX 1")
        ++ label_value "Tax District" (Soup.Tag "input" [("type", "submit"); ("value", "TXD 200")] []));
    tr (label_value "Billing Address 2" (font "-") ++ label_value "School System" (font "Edmond #12"));
    tr (label_value "City, State, Zip" (font "EDMOND,   OK 73034") ++ label_value "Land Size" (font land_size));
    tr [td [font "Land Value"]; td [font "Land Value"; font " 12,345 "]];
    tr [td [el "a" [Soup.Text "Treasurer"]]];
    tr [td [font "Sect 1-T12N-R3W   Qtr NW"]; td [el "a" [Soup.Text subdivision]]] ].

Definition document (body : list Soup.node) : Soup.node :=
  el "[document]" [el "html" [el "body" body]].

Definition filler : Soup.node := el "table" [tr [td [font "menu"]]].

(** The page: three tables of navigation, then the record table. *)
Definition page (record_rows : list Soup.node) : Soup.node :=
  document [filler; filler; filler; el "table" [el "tbody" record_rows]].

(** Stand-in for the parser: markup is told apart by name. *)
Definition soup (markup : string) : Soup.node :=
  if String.eqb markup "acres" then page (rows "0.25   Acres" "Elm   Heights Block 3A Lot 12")
  else if String.eqb markup "square feet" then page (rows "7000 Square Feet" "Oak Park Block 7 Lot 1")
  else if String.eqb markup "no unit" then page (rows "7000" "Oak Park Block 7 Lot 1")
  else if String.eqb markup "bad acres" then page (firstn 9 (rows "n/a Acres" "Oak Park Block 7 Lot 1"))
  else if String.eqb markup "no rows" then page []
  else if String.eqb markup "three tables" then document [filler; filler; filler]
  else document [].

Definition keep_digits (s : string) : string :=
  string_of_list_ascii (List.filter Text.is_digit (list_ascii_of_string s)).

(** Stand-in for [helpers.get_int]: the digits of the text, None without
    any. *)
Definition to_int (s : string) : option Z :=
  match keep_digits s with
  | EmptyString => None
  | ds => Some (Strptime.digits_value 0 ds)
  end.

(** Stand-in for [helpers.get_float], for the two numerals the sample pages
    carry. *)
Definition to_float (s : string) : option float :=
  if String.eqb s "0.25" then Some 0.25%float
  else if String.eqb s "7000" then Some 7000%float
  else None.

Definition valuation_row (y : Z) : dict :=
  {[ "year" := VInt y; "market_value" := VInt 100000;
     "taxable_market_value" := VInt 95000; "gross_assessed" := VInt 11000;
     "exemption" := VInt 1000; "net_assessed" := VInt 10000;
     "millage" := VFloat 113.5%float; "tax" := VFloat 1135%float;
     "tax_savings" := VFloat 0%float ]}.

Definition deed_row : dict :=
  {[ "date" := VStr "01/15/2021"; "type" := VStr "WD"; "book" := VInt 14000;
     "page" := VInt 12; "price" := VInt 250000; "grantor" := VStr "DOE JOHN";
     "grantee" := VStr "SMITH JOHN" ]}.

Definition permit_row : dict :=
  {[ "date" := VStr "03/02/2019"; "permit_number" := VStr "B-1";
     "provided_by" := VStr "EDMOND"; "building_number" := VInt 1;
     "description" := VStr "REROOF"; "estimated_cost" := VInt 9000;
     "status" := VStr "Closed" ]}.

(** A network that refuses the first two calls and answers from the third. *)
Definition flaky {A} (answer : A) (n : nat) : exn + A :=
  match n with
  | 0 => inl ConnectionError
  | 1 => inl TimeoutError
  | _ => inr answer
  end.

Definition world_ : collaborators :=
  Collaborators
    (fun n p => flaky (match p with VInt 2 => "square feet" | _ => "acres" end) n)
    (fun n _ => flaky [valuation_row 2020; valuation_row 2021] n)
    (fun n _ => flaky [deed_row] n)
    (fun n _ => flaky [permit_row] n)
    soup to_int to_float.

End Sample.

(** ** Vocabulary of the statements *)

Module Spec.
Import Py.

(** The errors a statement of the parsing code can end in: failed lookups
    ([IndexError], [KeyError]), attribute access on None, and operations on
    None ([TypeError]). *)
Definition parse_error (e : exn) : bool :=
  match e with
  | IndexError | KeyError | AttributeError | TypeError => true
  | _ => false
  end.

(** A step that, from every state, ends in a state related to the first by
    [I] and either returns a value satisfying [Q] or raises a parse error:
    it neither runs out of fuel nor raises what the retry handler catches. *)
Definition tame {S A} (I : S -> S -> Prop) (Q : A -> Prop) (m : M S A) : Prop :=
  forall s,
    I s (fst (m s)) /\
    match snd (m s) with
    | Return a => Q a
    | Raise e => parse_error e = true
    | OutOfFuel => False
    end.

(** An outcome the caller gets to see that is not one of the handler's
    failures: a value, or an exception the handler does not catch. *)
Definition settled {A} (o : outcome A) : Prop :=
  match o with
  | Return _ => True
  | Raise e => caught e = false
  | OutOfFuel => False
  end.

(** The answers [es] of a collaborator from its call number [n0] on are
    failures the handler catches. *)
Definition transient_run {A} (answer : nat -> exn + A) (n0 : nat) (es : list exn) : Prop :=
  forall i e, es !! i = Some e -> answer (n0 + i)%nat = inl e /\ caught e = true.

(** The world after the call [c] failed with [e] and the handler printed
    and slept. *)
Definition failed_once (c : call) (e : exn) (w : world) : world :=
  World (trace w ++ [c]) (stdout w ++ [ExceptionCaught e]) (slept w ++ [10%Z]).

(** The world after the call [c] was retried through the failures [es] and
    then answered. *)
Definition after_retries (c : call) (es : list exn) (w : world) : world :=
  World (trace w ++ replicate (S (length es)) c)
        (stdout w ++ (ExceptionCaught <$> es))
        (slept w ++ replicate (length es) 10%Z).

(** The (row, cell) positions [populate] reads. *)
Definition expected_cells : list (nat * nat) :=
  [(0, 0); (0, 1); (0, 4); (1, 1); (1, 3); (2, 1); (2, 3); (3, 1); (3, 3);
   (4, 1); (4, 3); (5, 1); (5, 3); (6, 1); (6, 3); (7, 1); (9, 0); (9, 1)]%nat.

Definition cell_at (rows : list Soup.node) (rc : nat * nat) : option Soup.node :=
  match rows !! fst rc with
  | Some tr => Soup.find_all "td" tr !! snd rc
  | None => None
  end.

(** The rows of the record table: the [tr] elements of the [tbody] of the
    fourth table. *)
Definition page_rows (soup : Soup.node) : option (list Soup.node) :=
  match Soup.find_all "table" soup !! 3%nat with
  | Some table =>
      match Soup.child "tbody" table with
      | Some tbody => Some (Soup.find_all "tr" tbody)
      | None => None
      end
  | None => None
  end.

(** The page has the table and every row and cell at its expected
    position. *)
Definition layout_ok (soup : Soup.node) : Prop :=
  exists rows, page_rows soup = Some rows /\
    forall rc, In rc expected_cells -> is_Some (cell_at rows rc).

(** What [populate] may change besides the other attributes: it makes no
    call and does not sleep, it prints values only, and it sets
    [propertyid] only to the identifier it was called with. *)
Definition populate_inv (kwargs : dict) (s s' : RealProperty.state) : Prop :=
  trace (snd s') = trace (snd s) /\
  slept (snd s') = slept (snd s) /\
  (exists vs, stdout (snd s') = stdout (snd s) ++ (Printed <$> vs)) /\
  RealProperty.valuations (fst s') = RealProperty.valuations (fst s) /\
  (RealProperty.attrs (fst s') !! "propertyid" = RealProperty.attrs (fst s) !! "propertyid"
   \/ exists p, kwargs !! "propertyid" = Some p
                /\ RealProperty.attrs (fst s') !! "propertyid" = Some p).

(** A numeral of digits, decimal point and thousands separators. *)
Definition numeral_char (c : ascii) : bool :=
  Text.is_digit c || (Text.code c =? 46)%nat || (Text.code c =? 44)%nat.

Definition numeral (s : string) : Prop :=
  s <> "" /\ Text.all numeral_char s = true.

(** The letter q, which " Square Feet" has and a numeral has not. *)
Definition is_q (c : ascii) : bool := (Text.code c =? 113)%nat.

(** A non-empty run of letters and digits. *)
Definition alnum (s : string) : Prop :=
  s <> "" /\ Text.all Text.is_alnum s = true.

(** A text that starts, on its first line, with something followed by
    [unit]. *)
Definition has_unit (unit text : string) : Prop :=
  exists u v, text = u +:+ unit +:+ v /\ Text.all Text.is_dot u = true.

(** A text that contains "<name> Block <alnum> Lot <alnum>". *)
Definition block_lot_shaped (text : string) : Prop :=
  exists pre name block lot post,
    text = pre +:+ name +:+ " Block " +:+ block +:+ " Lot " +:+ lot +:+ post
    /\ name <> "" /\ Text.all Text.is_dot name = true /\ alnum block /\ alnum lot.

(** The record after the three assignments of line 133. *)
Definition with_block_lot (name block lot : string) (self : RealProperty.t) : RealProperty.t :=
  RealProperty.Build
    (<["lot" := VStr lot]> (<["block" := VStr block]>
       (<["subdivision" := VStr name]> (RealProperty.attrs self))))
    (RealProperty.valuations self).

Definition with_land_size (v : value) (self : RealProperty.t) : RealProperty.t :=
  RealProperty.Build (<["land_size" := v]> (RealProperty.attrs self))
                     (RealProperty.valuations self).








(** The columns of the three entry kinds, under the keys of the row they
    were built from. *)
Definition valuation_columns (v : ValuationHistory.t) : list (string * value) :=
  [("year", ValuationHistory.year v);
   ("market_value", ValuationHistory.market_value v);
   ("taxable_market_value", ValuationHistory.taxable_market_value v);
   ("gross_assessed", ValuationHistory.gross_assessed v);
   ("exemption", ValuationHistory.exemption v);
   ("net_assessed", ValuationHistory.net_assessed v);
   ("millage", ValuationHistory.millage v);
   ("tax", ValuationHistory.tax v);
   ("tax_savings", ValuationHistory.tax_savings v)].

Definition deed_columns (t : DeedTransaction.t) : list (string * value) :=
  [("date", DeedTransaction.date t);
   ("type", DeedTransaction.type t);
   ("book", DeedTransaction.book t);
   ("page", DeedTransaction.page t);
   ("price", DeedTransaction.price t);
   ("grantor", DeedTransaction.grantor t);
   ("grantee", DeedTransaction.grantee t)].

Definition permit_columns (p : BuildingPermit.t) : list (string * value) :=
  [("date", BuildingPermit.date p);
   ("permit_number", BuildingPermit.permit_number p);
   ("provided_by", BuildingPermit.provided_by p);
   ("building_number", BuildingPermit.building_number p);
   ("description", BuildingPermit.description p);
   ("estimated_cost", BuildingPermit.estimated_cost p);
   ("status", BuildingPermit.status p)].

(** Every column holds the value the row has under its key. *)
Definition verbatim (d : dict) (columns : list (string * value)) : Prop :=
  Forall (fun kv => d !! fst kv = Some (snd kv)) columns.

(** The date column holds the parsed text of the row's date. *)
Definition date_parsed (d : dict) (date : value) : Prop :=
  exists text dt,
    d !! "date" = Some (VStr text) /\ Strptime.parse text = inr dt /\ date = VDatetime dt.

Definition has_keys (keys : list string) (d : dict) : Prop :=
  Forall (fun k => is_Some (d !! k)) keys.

(** The body of a loop over rows leaves the state alone and is settled. *)
Definition row_step {S A B} (f : A -> M S B) : Prop :=
  forall x s, fst (f x s) = s /\ settled (snd (f x s)).

Definition valuation_keys : list string :=
  ["year"; "market_value"; "taxable_market_value"; "gross_assessed"; "exemption";
   "net_assessed"; "millage"; "tax"; "tax_savings"].

End Spec.

(** ** [RealProperty.extractBuildings]

    The method is written like [extractValuationHistory], with two
    differences the model keeps: the rows come from
    [get_tables.get_building_list], and every entry starts with
    [rp_tables.Building()], an attribute lookup in the module
    [rp_tables]. *)

Module Buildings.
Import Py Net.

(** The names bound at the top level of [rp_tables.py]: what its [import]
    statements bring in and the three classes it defines. *)
Definition rp_tables_names : list string :=
  ["Column"; "Integer"; "Float"; "String"; "Date"; "relationship"; "ForeignKey";
   "Base"; "datetime"; "requests"; "get_tables"; "time"; "urllib3";
   "ValuationHistory"; "DeedTransaction"; "BuildingPermit"].

(** [module.name]: a name the module does not bind raises
    [AttributeError]. *)
Definition module_attr {S} (names : list string) (name : string) : M S unit :=
  if bool_decide (name ∈ names) then ret tt else raise AttributeError.

(** The attributes the loop assigns on an entry. *)
Record t : Type := Build {
  bldg_id : value;
  vacant_or_improved : value;
  bldg_description : value;
  year_built : value;
  sq_ft : value;
  number_stories : value
}.

(** The body of the [for] loop. *)
Definition of_row {S} (d : dict) : M S t :=
  module_attr rp_tables_names "Building" ;;
  let! v_bldg_id := getitem d "building_number" in
  let! v_vacant_or_improved := getitem d "vacant_or_improved" in
  let! v_bldg_description := getitem d "building_description" in
  let! v_year_built := getitem d "year_built" in
  let! v_sq_ft := getitem d "square_feet" in
  let! v_number_stories := getitem d "stories" in
  ret (Build v_bldg_id v_vacant_or_improved v_bldg_description v_year_built
             v_sq_ft v_number_stories).

(** The object with its [buildings] relationship, and the world with the
    calls of [get_building_list] next to the other calls. *)
Record state : Type := State {
  self : RealProperty.t;
  buildings : list t;
  outside : world;
  building_calls : list value
}.

(** The number of outbound calls made so far. *)
Definition calls (s : state) : nat :=
  (length (trace (outside s)) + length (building_calls s))%nat.

(** [get_tables.get_building_list(propertyid)]: recorded, then answers or
    raises. *)
Definition get_building_list_call (answer : nat -> value -> exn + list dict)
    (propertyid : value) : M state (list dict) :=
  fun s =>
    lift (answer (calls s) propertyid)
         (State (self s) (buildings s) (outside s) (building_calls s ++ [propertyid])).

(** A step on the world next to the object. *)
Definition outside_step {A} (m : M world A) : M state A :=
  fun s =>
    match m (outside s) with
    | (w', r) => (State (self s) (buildings s) w' (building_calls s), r)
    end.

(** [self.buildings = buildingList] *)
Definition set_buildings (l : list t) : M state unit :=
  modify (fun s => State (self s) l (outside s) (building_calls s)).

Section Extract.
(** Modelled from the spec: [get_tables.get_building_list] is not under
    src/; like the other row-list extractors it returns one dictionary per
    row or raises. *)
Context (get_building_list : nat -> value -> exn + list dict).

(** Lines 177-187. *)
Definition store_buildings (building_dicts : list dict) : M state value :=
  let! buildingList := for_each of_row building_dicts in
  set_buildings buildingList ;;
  ret VNone.

(** [self.extractBuildings(propertyid)]; [fuel] bounds the nesting of the
    recursive retry. *)
Fixpoint extractBuildings (fuel : nat) (propertyid : value) {struct fuel} : M state value :=
  let! r := attempt (get_building_list_call get_building_list propertyid) in
  match r with
  | inl e =>
      if caught e then
        outside_step (print (ExceptionCaught e)) ;;
        outside_step (sleep 10) ;;
        match fuel with
        | O => diverge
        | S fuel' => extractBuildings fuel' propertyid
        end
      else raise e
  | inr building_dicts => store_buildings building_dicts
  end.

End Extract.
End Buildings.

(** ** Vocabulary of the further statements *)

Module Behaviour.
Import Py.

(** The world after the call [c] failed with each of [es] in turn, the
    handler printing and sleeping after each failure. *)
Definition retried (c : call) (es : list exn) (w : world) : world :=
  World (trace w ++ replicate (length es) c)
        (stdout w ++ (ExceptionCaught <$> es))
        (slept w ++ replicate (length es) 10%Z).

(** What a run of a method that retries the call [c] leaves in the world,
    given the world before and the outcome: [es] are the failures the
    handler caught; either the call then answered or raised something else
    ([fuel] retries sufficed), or every allowed retry failed too. *)
Definition retry_shape {A} (c : call) (fuel : nat) (w w' : world) (o : outcome A) : Prop :=
  exists es,
    Forall (fun e => caught e = true) es /\
    ((Spec.settled o /\ w' = Spec.after_retries c es w /\ length es <= fuel)
     \/ (o = OutOfFuel /\ w' = retried c es w /\ length es = S fuel)).


(** The attributes [extractRealPropertyData] assigns, in the order of the
    assignments. *)
Definition assigned_names : list string :=
  ["propertyid"; "account_number"; "property_type"; "location";
   "building_name_occupant"; "city"; "owner_name_1"; "quarter_section";
   "owner_name_2"; "parent_acct"; "billing_address_1"; "tax_district";
   "billing_address_2"; "school_system"; "city_state_zip"; "land_size_str";
   "land_size"; "land_value"; "quarter_section_description"; "subdivision";
   "block"; "lot"].

(** The attributes a run of [extractRealPropertyData] that returns has
    assigned in every case: all of the above but [land_size], whose
    assignment depends on the unit of the land size. *)
Definition assigned_on_success : list string :=
  ["propertyid"; "account_number"; "property_type"; "location";
   "building_name_occupant"; "city"; "owner_name_1"; "quarter_section";
   "owner_name_2"; "parent_acct"; "billing_address_1"; "tax_district";
   "billing_address_2"; "school_system"; "city_state_zip"; "land_size_str";
   "land_value"; "quarter_section_description"; "subdivision"; "block"; "lot"].

(** Every attribute of [names] is assigned. *)
Definition holds (names : list string) (s : RealProperty.state) : Prop :=
  Forall (fun name => is_Some (RealProperty.attrs (fst s) !! name)) names.

(** A step that, started with the attributes [names] assigned, has the
    attributes [names'] assigned when it returns. *)
Definition grows {A} (names names' : list string) (m : M RealProperty.state A) : Prop :=
  forall s,
    holds names s ->
    match snd (m s) with
    | Return _ => holds names' (fst (m s))
    | _ => True
    end.

(** The attribute [name] reads the same in both states. *)
Definition keeps (name : string) (s s' : RealProperty.state) : Prop :=
  RealProperty.attrs (fst s') !! name = RealProperty.attrs (fst s) !! name.

(** The attributes of the second state are those of the first, and under
    every name the first leaves unassigned what the record [old] holds. *)
Definition on_top_of (old : RealProperty.t) (s0 s : RealProperty.state) : Prop :=
  RealProperty.attrs (fst s) = RealProperty.attrs (fst s0) ∪ RealProperty.attrs old.

(** A step that does not look at the attributes: from two states related
    by [on_top_of] it has the same outcome and keeps the states related. *)
Definition alike {A} (old : RealProperty.t) (m : M RealProperty.state A) : Prop :=
  forall s0 s,
    on_top_of old s0 s ->
    snd (m s0) = snd (m s) /\ on_top_of old (fst (m s0)) (fst (m s)).






(** [g] is what the group of a unit pattern captures in [text]: the
    longest start of the text, on its first line, that [unit] follows. *)
Definition before_last (unit text g : string) : Prop :=
  (exists v, text = g +:+ unit +:+ v)
  /\ Text.all Text.is_dot g = true
  /\ forall g' v',
      text = g' +:+ unit +:+ v' -> Text.all Text.is_dot g' = true ->
      (String.length g' <= String.length g)%nat.

(** A network that fails once with a class the handler catches and then
    with one it does not ([requests.exceptions.ReadTimeout] is no subclass
    of the five). *)
Definition failing {A} (n : nat) : exn + A :=
  match n with
  | 0 => inl ConnectionError
  | _ => inl (OtherError "ReadTimeout")
  end.


Definition unreachable : collaborators :=
  Collaborators (fun n _ => failing n) (fun n _ => failing n) (fun n _ => failing n)
                (fun n _ => failing n) Sample.soup Sample.to_int Sample.to_float.



(** A row of the building list. *)
Definition building_row : dict :=
  {[ "building_number" := VInt 1; "vacant_or_improved" := VStr "Improved";
     "building_description" := VStr "Ranch 1 Story"; "year_built" := VInt 1975;
     "square_feet" := VInt 1800; "stories" := VInt 1 ]}.

End Behaviour.

(** * Facts *)

(** ** Text *)

Section TextFacts.
Import Text.

Lemma sapp_nil_l (s : string) : "" +:+ s = s.
Proof. reflexivity. Qed.

Lemma sapp_cons (c : ascii) (s t : string) : String c s +:+ t = String c (s +:+ t).
Proof. reflexivity. Qed.

Lemma sapp_nil_r (s : string) : s +:+ "" = s.
Proof. induction s as [|c s IH]; [reflexivity | now rewrite sapp_cons, IH]. Qed.

Lemma sapp_assoc (a b c : string) : (a +:+ b) +:+ c = a +:+ (b +:+ c).
Proof. induction a as [|x a IH]; [reflexivity | now rewrite !sapp_cons, IH]. Qed.

Lemma slength_app (a b : string) :
  String.length (a +:+ b) = (String.length a + String.length b)%nat.
Proof. induction a as [|x a IH]; [reflexivity | rewrite sapp_cons; simpl; now rewrite IH]. Qed.

Lemma all_app (p : ascii -> bool) (a b : string) :
  all p (a +:+ b) = all p a && all p b.
Proof.
  induction a as [|x a IH]; [reflexivity|].
  rewrite sapp_cons. simpl. rewrite IH. now rewrite andb_assoc.
Qed.

Lemma count_app (p : ascii -> bool) (a b : string) :
  count p (a +:+ b) = (count p a + count p b)%nat.
Proof.
  induction a as [|x a IH]; [reflexivity|].
  rewrite sapp_cons. simpl. rewrite IH. lia.
Qed.

Lemma strip_prefix_app (l s : string) : strip_prefix l (l +:+ s) = Some s.
Proof.
  induction l as [|x l IH]; [reflexivity|].
  rewrite sapp_cons. simpl. now rewrite Ascii.eqb_refl.
Qed.

Lemma strip_prefix_Some (l s r : string) :
  strip_prefix l s = Some r -> s = l +:+ r.
Proof.
  revert s; induction l as [|x l IH]; intros s; simpl.
  - intros [= ->]. reflexivity.
  - destruct s as [|y s]; [discriminate|].
    destruct (Ascii.eqb_spec x y) as [->|]; [|discriminate].
    intros H. now rewrite sapp_cons, (IH _ H).
Qed.

End TextFacts.

(** ** The matcher against the declarative reading of a pattern *)

Section ReFacts.
Import Text Re.
Context {R : Type}.

Lemma star_sound (p : ascii -> bool) (s : string) :
  forall (k : string -> string -> option R) x,
    star p s k = Some x ->
    exists u rest, s = u +:+ rest /\ all p u = true /\ k u rest = Some x.
Proof.
  induction s as [|c s IH]; intros k x H; simpl in H.
  - exists "", "". auto.
  - destruct (p c) eqn:Hc.
    + destruct (star p s _) as [y|] eqn:Hs.
      * injection H as ->. apply IH in Hs as (u & rest & -> & Hu & Hk).
        exists (String c u), rest. simpl. rewrite Hc, Hu. auto.
      * exists "", (String c s). auto.
    + exists "", (String c s). auto.
Qed.

Lemma exec_sound (r : regex) :
  forall (s : string) (k : cont) (x : R),
    exec r s k = Some x ->
    exists u gs rest, s = u +:+ rest /\ matches r u gs /\ k u gs rest = Some x.
Proof.
  induction r as [l|p|p|p|r IH|r1 IH1 r2 IH2|r1 IH1 r2 IH2]; intros s k x H; simpl in H.
  - destruct (strip_prefix l s) as [rest|] eqn:Hp; [|discriminate].
    exists l, [], rest. split; [now apply strip_prefix_Some|]. split; [constructor | exact H].
  - destruct s as [|c s]; [discriminate|]. destruct (p c) eqn:Hc; [|discriminate].
    exists (String c ""), [], s. repeat split; [now constructor | exact H].
  - apply star_sound in H as (u & rest & -> & Hu & Hk).
    exists u, [], rest. repeat split; [now constructor | exact Hk].
  - destruct s as [|c s]; [discriminate|]. destruct (p c) eqn:Hc; [|discriminate].
    apply star_sound in H as (u & rest & -> & Hu & Hk).
    exists (String c u), [], rest. repeat split; [now constructor | exact Hk].
  - apply IH in H as (u & gs & rest & -> & Hm & Hk).
    exists u, (u :: gs), rest. repeat split; [now constructor | exact Hk].
  - apply IH1 in H as (u1 & g1 & rest1 & -> & Hm1 & H).
    apply IH2 in H as (u2 & g2 & rest2 & -> & Hm2 & H).
    exists (u1 +:+ u2), (g1 ++ g2), rest2.
    split; [now rewrite sapp_assoc|]. split; [now constructor | exact H].
  - destruct (exec r1 s k) as [y|] eqn:H1.
    + injection H as ->. apply IH1 in H1 as (u & gs & rest & -> & Hm & Hk).
      exists u, gs, rest. repeat split; [now apply m_alt_l | exact Hk].
    + apply IH2 in H as (u & gs & rest & -> & Hm & Hk).
      exists u, gs, rest. repeat split; [now apply m_alt_r | exact Hk].
Qed.

Lemma star_fallback (p : ascii -> bool) (s : string) (k : string -> string -> option R) :
  is_Some (k "" s) -> is_Some (star p s k).
Proof.
  intros H. destruct s as [|c s]; simpl; [exact H|].
  destruct (p c); [|exact H].
  destruct (star p s _); [eauto | exact H].
Qed.

Lemma star_complete (p : ascii -> bool) (u : string) :
  all p u = true ->
  forall rest (k : string -> string -> option R),
    is_Some (k u rest) -> is_Some (star p (u +:+ rest) k).
Proof.
  induction u as [|c u IH]; intros Hu rest k Hk.
  - now apply star_fallback.
  - simpl in Hu. apply andb_prop in Hu as [Hc Hu]. rewrite sapp_cons. simpl. rewrite Hc.
    destruct (IH Hu rest (fun w t => k (String c w) t) Hk) as [y ->]. eauto.
Qed.

Lemma exec_complete (r : regex) (u : string) (gs : list string) :
  matches r u gs ->
  forall rest (k : cont (R:=R)), is_Some (k u gs rest) -> is_Some (exec r (u +:+ rest) k).
Proof.
  induction 1 as [l|p c Hc|p u Hu|p c u Hc Hu|r u gs Hm IH
                  |r1 r2 u1 u2 g1 g2 Hm1 IH1 Hm2 IH2|r1 r2 u gs Hm IH|r1 r2 u gs Hm IH];
    intros rest k Hk; simpl.
  - now rewrite strip_prefix_app.
  - rewrite ?sapp_cons, ?sapp_nil_l. now rewrite Hc.
  - now apply star_complete.
  - rewrite ?sapp_cons, Hc. now apply (star_complete p u Hu rest (fun w t => k (String c w) [] t)).
  - now apply IH.
  - rewrite sapp_assoc. apply IH1. now apply IH2.
  - destruct (IH rest k Hk) as [y ->]. eauto.
  - destruct (exec r1 (u +:+ rest) k); [eauto | now apply IH].
Qed.

(** A greedy run takes [u] whole when something after it then matches. *)
Lemma star_over (p : ascii -> bool) (u : string) :
  all p u = true ->
  forall v (k : string -> string -> option R) x,
    star p v (fun w rest => k (u +:+ w) rest) = Some x ->
    star p (u +:+ v) k = Some x.
Proof.
  induction u as [|c u IH]; intros Hu v k x H.
  - exact H.
  - simpl in Hu. apply andb_prop in Hu as [Hc Hu]. rewrite sapp_cons. simpl. rewrite Hc.
    now rewrite (IH Hu v (fun w rest => k (String c w) rest) x H).
Qed.

(** A greedy run gives back everything when no shorter remainder can go on. *)
Lemma star_stop (p : ascii -> bool) (v : string) :
  forall k : string -> string -> option R,
    (forall w rest, w <> "" -> v = w +:+ rest -> k w rest = None) ->
    star p v k = k "" v.
Proof.
  induction v as [|c v IH]; intros k H; simpl; [reflexivity|].
  destruct (p c); [|reflexivity].
  rewrite IH.
  - rewrite (H (String c "") v); [reflexivity | discriminate | reflexivity].
  - intros w rest Hw ->. apply H; [discriminate | reflexivity].
Qed.

End ReFacts.

(** ** Steps that only fail with parse errors *)

Section Tame.
Import Py Spec.
Context {S : Type} (I : S -> S -> Prop) {I_refl : Reflexive I} {I_trans : Transitive I}.

Lemma tame_ret {A} (Q : A -> Prop) (a : A) : Q a -> tame I Q (ret a).
Proof. intros H s. simpl. auto. Qed.

Lemma tame_raise {A} (Q : A -> Prop) (e : exn) :
  parse_error e = true -> tame I Q (raise (A:=A) e).
Proof. intros H s. simpl. auto. Qed.

Lemma tame_bind {A B} (Q : A -> Prop) (Q' : B -> Prop) (m : M S A) (f : A -> M S B) :
  tame I Q m -> (forall a, Q a -> tame I Q' (f a)) -> tame I Q' (bind m f).
Proof.
  intros Hm Hf s. specialize (Hm s). unfold bind.
  destruct (m s) as [s1 [a|e|]]; simpl in *; destruct Hm as [Hi Ho]; try easy.
  specialize (Hf a Ho s1). destruct Hf as [Hi' Ho']. split; [|exact Ho'].
  now transitivity s1.
Qed.

Lemma tame_weaken {A} (Q Q' : A -> Prop) (m : M S A) :
  tame I Q m -> (forall a, Q a -> Q' a) -> tame I Q' m.
Proof.
  intros Hm HQ s. destruct (Hm s) as [Hi Ho]. split; [exact Hi|].
  destruct (snd (m s)); auto.
Qed.

Lemma tame_index {A} (l : list A) (i : nat) :
  tame I (fun x => l !! i = Some x) (index l i).
Proof. intros s. unfold index. destruct (l !! i); simpl; auto. Qed.

Lemma tame_getitem (d : dict) (key : string) :
  tame I (fun v => d !! key = Some v) (getitem d key).
Proof. intros s. unfold getitem. destruct (d !! key); simpl; auto. Qed.

Lemma tame_dot (name : string) (x : option Soup.node) :
  tame I (fun y => exists n, x = Some n /\ y = Soup.child name n) (Soup.dot name x).
Proof. intros s. destruct x; simpl; eauto. Qed.

Lemma tame_dot_find_all (name : string) (x : option Soup.node) :
  tame I (fun l => exists n, x = Some n /\ l = Soup.find_all name n) (Soup.dot_find_all name x).
Proof. intros s. destruct x; simpl; eauto. Qed.

Lemma tame_dot_string (x : option Soup.node) : tame I (fun _ => True) (Soup.dot_string x).
Proof. intros s. destruct x; simpl; auto. Qed.

Lemma tame_dot_strip (t : option string) : tame I (fun _ => True) (Soup.dot_strip t).
Proof. intros s. destruct t; simpl; auto. Qed.

Lemma tame_dot_collapse (t : option string) : tame I (fun _ => True) (Soup.dot_collapse t).
Proof. intros s. destruct t; simpl; auto. Qed.

Lemma tame_subscript (key : string) (x : option Soup.node) :
  tame I (fun _ => True) (Soup.subscript key x).
Proof.
  intros s. destruct x as [n|]; simpl; auto.
  destruct (Soup.attribute key n); simpl; auto.
Qed.

Lemma tame_follow (path : list string) :
  forall x, tame I (fun _ => True) (RealProperty.follow path x).
Proof.
  induction path as [|name path IH]; intros x; simpl.
  - now apply tame_ret.
  - eapply tame_bind; [apply tame_dot | intros y _; apply IH].
Qed.

Lemma tame_stripped (cur_tds : list Soup.node) (i : nat) (path : list string) :
  tame I (fun _ => is_Some (cur_tds !! i)) (RealProperty.stripped cur_tds i path).
Proof.
  unfold RealProperty.stripped.
  eapply tame_bind; [apply tame_index | intros td Htd].
  eapply tame_bind; [apply tame_follow | intros x _].
  eapply tame_bind; [apply tame_dot_string | intros t _].
  eapply tame_weaken; [apply tame_dot_strip | intros _ _; now exists td].
Qed.

Lemma tame_collapsed (cur_tds : list Soup.node) (i : nat) (path : list string) :
  tame I (fun _ => is_Some (cur_tds !! i)) (RealProperty.collapsed cur_tds i path).
Proof.
  unfold RealProperty.collapsed.
  eapply tame_bind; [apply tame_index | intros td Htd].
  eapply tame_bind; [apply tame_follow | intros x _].
  eapply tame_bind; [apply tame_dot_string | intros t _].
  eapply tame_weaken; [apply tame_dot_collapse | intros _ _; now exists td].
Qed.

Lemma tame_cells (rows : list Soup.node) (i : nat) :
  tame I (fun tds => exists tr, rows !! i = Some tr /\ tds = Soup.find_all "td" tr)
       (RealProperty.cells rows i).
Proof.
  unfold RealProperty.cells.
  eapply tame_bind; [apply tame_index | intros tr Htr].
  apply tame_ret. now exists tr.
Qed.

Lemma tame_group_1 (m : Re.found) : tame I (fun _ => True) (RealProperty.group_1 m).
Proof. intros s. unfold RealProperty.group_1. destruct (Re.group m 1); simpl; auto. Qed.

Lemma tame_times_43560 (x : option float) : tame I (fun _ => True) (times_43560 x).
Proof. intros s. destruct x; simpl; auto. Qed.

Lemma tame_get : tame I (fun _ => True) get.
Proof. intros s. simpl. auto. Qed.

End Tame.

(** ** [re.match] and [re.findall] *)

Section SearchFacts.
Import Text Re.

Lemma match_sound (r : regex) (s : string) (m : found) :
  match_ r s = Some m ->
  s = whole m +:+ rest m /\ matches r (whole m) (groups m).
Proof.
  intros H. apply exec_sound in H as (u & gs & t & -> & Hm & [= <-]). auto.
Qed.

Lemma match_complete (r : regex) (u : string) (gs : list string) (t : string) :
  matches r u gs -> is_Some (match_ r (u +:+ t)).
Proof. intros H. apply (exec_complete r u gs H). eauto. Qed.

Lemma findall_at_start (r : regex) (s : string) (m : found) :
  match_ r s = Some m -> head (findall r s) = Some (groups m).
Proof. intros H. unfold findall. simpl. now rewrite H. Qed.

Lemma findall_from_head (fuel : nat) (r : regex) :
  forall s gs,
    head (findall_from fuel r s) = Some gs ->
    exists pre t m, s = pre +:+ t /\ match_ r t = Some m /\ groups m = gs.
Proof.
  induction fuel as [|fuel IH]; intros s gs H; simpl in H; [discriminate|].
  destruct (match_ r s) as [m|] eqn:Hm.
  - injection H as <-. exists "", s, m. auto.
  - destruct s as [|c s]; [discriminate|].
    apply IH in H as (pre & t & m & -> & Ht & Hg).
    exists (String c pre), t, m. auto.
Qed.

Lemma findall_from_found (r : regex) (t : string) :
  is_Some (match_ r t) ->
  forall pre fuel,
    (String.length pre < fuel)%nat -> findall_from fuel r (pre +:+ t) <> [].
Proof.
  intros Ht pre. induction pre as [|c pre IH]; intros [|fuel] Hlt; try (simpl in Hlt; lia).
  - rewrite sapp_nil_l. simpl. destruct Ht as [m ->]. discriminate.
  - rewrite sapp_cons. simpl.
    destruct (match_ r (String c (pre +:+ t))); [discriminate|].
    apply IH. simpl in Hlt. lia.
Qed.

Lemma findall_found (r : regex) (pre u t : string) (gs : list string) :
  matches r u gs -> findall r (pre +:+ u +:+ t) <> [].
Proof.
  intros H. unfold findall. apply findall_from_found.
  - now apply (match_complete r u gs).
  - rewrite slength_app. lia.
Qed.

End SearchFacts.

(** ** The three patterns of [real_property.py] *)

Section PatternFacts.
Import Text Re Spec RealProperty.

Lemma matches_cat_inv (r1 r2 : regex) (u : string) (gs : list string) :
  matches (Cat r1 r2) u gs ->
  exists u1 u2 g1 g2,
    u = u1 +:+ u2 /\ gs = g1 ++ g2 /\ matches r1 u1 g1 /\ matches r2 u2 g2.
Proof. inversion 1; subst. eauto 10. Qed.

Lemma matches_grp_inv (r : regex) (u : string) (gs : list string) :
  matches (Grp r) u gs -> exists g, gs = u :: g /\ matches r u g.
Proof. inversion 1; subst. eauto. Qed.

Lemma matches_lit_inv (l u : string) (gs : list string) :
  matches (Lit l) u gs -> u = l /\ gs = [].
Proof. inversion 1; subst. auto. Qed.


Lemma matches_star_inv (p : ascii -> bool) (u : string) (gs : list string) :
  matches (Star p) u gs -> all p u = true /\ gs = [].
Proof. inversion 1; subst. auto. Qed.

Lemma matches_plus_inv (p : ascii -> bool) (u : string) (gs : list string) :
  matches (Plus p) u gs -> u <> "" /\ all p u = true /\ gs = [].
Proof.
  inversion 1 as [| | |p' c u' Hc Hu| | | |]; subst.
  split; [discriminate|]. simpl. now rewrite Hc, Hu.
Qed.


Lemma all_plus (p : ascii -> bool) (u : string) :
  u <> "" -> all p u = true -> matches (Plus p) u [].
Proof.
  destruct u as [|c u]; [easy|]. simpl. intros _ H.
  apply andb_prop in H as [Hc Hu]. now apply m_plus.
Qed.

Lemma block_lot_matches (u : string) (gs : list string) :
  matches block_lot_re u gs ->
  exists name block lot,
    gs = [name; block; lot]
    /\ u = name +:+ " Block " +:+ block +:+ " Lot " +:+ lot
    /\ name <> "" /\ all is_dot name = true /\ alnum block /\ alnum lot.
Proof.
  unfold block_lot_re. intros H.
  apply matches_cat_inv in H as (name & u1 & g0 & g1 & -> & -> & Hname & H).
  apply matches_grp_inv in Hname as (ga & -> & Hname).
  apply matches_plus_inv in Hname as (Hn & Hd & ->).
  apply matches_cat_inv in H as (l1 & u2 & gb & g2 & -> & -> & Hl1 & H).
  apply matches_lit_inv in Hl1 as [-> ->].
  apply matches_cat_inv in H as (block & u3 & gc & g3 & -> & -> & Hblock & H).
  apply matches_grp_inv in Hblock as (gd & -> & Hblock).
  apply matches_plus_inv in Hblock as (Hb & Hb' & ->).
  apply matches_cat_inv in H as (l2 & lot & ge & g4 & -> & -> & Hl2 & Hlot).
  apply matches_lit_inv in Hl2 as [-> ->].
  apply matches_grp_inv in Hlot as (gf & -> & Hlot).
  apply matches_plus_inv in Hlot as (Hl & Hl' & ->).
  exists name, block, lot. unfold alnum. auto 10.
Qed.

Lemma matches_block_lot (name block lot : string) :
  name <> "" -> all is_dot name = true -> alnum block -> alnum lot ->
  matches block_lot_re (name +:+ " Block " +:+ block +:+ " Lot " +:+ lot)
          [name; block; lot].
Proof.
  intros Hn Hd [Hb Hb'] [Hl Hl'].
  unfold block_lot_re.
  apply (m_cat _ _ _ _ [_] [_; _]); [apply m_grp; now apply all_plus|].
  apply (m_cat _ _ _ _ [] [_; _]); [apply m_lit|].
  apply (m_cat _ _ _ _ [_] [_]); [apply m_grp; now apply all_plus|].
  apply (m_cat _ _ _ _ [] [_]); [apply m_lit|].
  apply m_grp; now apply all_plus.
Qed.

(** The text has the shape exactly when the search finds a match. *)
Lemma block_lot_found (text : string) :
  block_lot_shaped text <-> findall block_lot_re text <> [].
Proof.
  split.
  - intros (pre & name & block & lot & post & -> & Hn & Hd & Hb & Hl).
    pose proof (matches_block_lot name block lot Hn Hd Hb Hl) as Hm.
    pose proof (findall_found block_lot_re pre _ post _ Hm) as Hf.
    now rewrite !sapp_assoc in Hf.
  - intros Hf. destruct (findall block_lot_re text) as [|gs l] eqn:Hfind; [easy|].
    assert (Hh : head (findall block_lot_re text) = Some gs) by now rewrite Hfind.
    apply findall_from_head in Hh as (pre & t & m & -> & Hm & Hg).
    apply match_sound in Hm as [Ht Hm].
    apply block_lot_matches in Hm as (name & block & lot & _ & Hw & Hn & Hd & Hb & Hl).
    exists pre, name, block, lot, (rest m). rewrite Ht, Hw, !sapp_assoc. auto.
Qed.

Lemma findall_block_lot_first (text : string) (first : list string) :
  findall block_lot_re text !! 0%nat = Some first ->
  exists name block lot, first = [name; block; lot].
Proof.
  rewrite <- head_lookup. intros H.
  apply findall_from_head in H as (pre & t & m & -> & Hm & <-).
  apply match_sound in Hm as [_ Hm].
  apply block_lot_matches in Hm as (name & block & lot & -> & _). eauto.
Qed.

End PatternFacts.

(** ** [populate] *)

Section PopulateFacts.
Import Py Net Spec RealProperty.
Context (E : collaborators) (kwargs : dict).

#[local] Instance populate_inv_refl : Reflexive (populate_inv kwargs).
Proof.
  intros s. unfold populate_inv. repeat split; auto.
  exists []. simpl. now rewrite List.app_nil_r.
Qed.

#[local] Instance populate_inv_trans : Transitive (populate_inv kwargs).
Proof.
  intros s1 s2 s3 (Ht & Hs & (vs & Ho) & Hv & Hp) (Ht' & Hs' & (vs' & Ho') & Hv' & Hp').
  unfold populate_inv. rewrite Ht', Hs', Hv', Ho', Ho. repeat split; auto.
  - exists (vs ++ vs'). now rewrite fmap_app, List.app_assoc.
  - destruct Hp' as [Hp'|Hp']; [rewrite Hp'; exact Hp | now right].
Qed.

Lemma tame_setattr (name : string) (v : value) :
  name <> "propertyid" ->
  tame (populate_inv kwargs) (fun _ => True) (setattr name v).
Proof.
  intros Hne s. split; [|exact Logic.I].
  unfold populate_inv. simpl. repeat split.
  - exists []. simpl. now rewrite List.app_nil_r.
  - left. now rewrite lookup_insert_ne.
Qed.

Lemma tame_setattr_propertyid (p : value) :
  kwargs !! "propertyid" = Some p ->
  tame (populate_inv kwargs) (fun _ => True) (setattr "propertyid" p).
Proof.
  intros Hp s. split; [|exact Logic.I].
  unfold populate_inv. simpl. repeat split.
  - exists []. simpl. now rewrite List.app_nil_r.
  - right. exists p. now rewrite lookup_insert_eq.
Qed.

Lemma tame_print (v : value) :
  tame (populate_inv kwargs) (fun _ => True) (in_world (X:=RealProperty.t) (print (Printed v))).
Proof.
  intros s. split; [|exact Logic.I]. unfold populate_inv. simpl. repeat split; auto.
  now exists [v].
Qed.

Lemma tame_land_size_of (land_size_str : string) :
  tame (populate_inv kwargs) (fun _ => True) (land_size_of E land_size_str).
Proof.
  unfold land_size_of.
  destruct (Re.match_ square_feet_re land_size_str) as [m|].
  - eapply (tame_bind (populate_inv kwargs)); [apply (tame_group_1 (populate_inv kwargs)) | intros g _].
    now apply tame_setattr.
  - destruct (Re.match_ acres_re land_size_str) as [m|].
    + eapply (tame_bind (populate_inv kwargs)); [apply (tame_group_1 (populate_inv kwargs)) | intros g _].
      eapply (tame_bind (populate_inv kwargs)); [apply (tame_times_43560 (populate_inv kwargs)) | intros v _].
      now apply tame_setattr.
    + now apply (tame_ret (populate_inv kwargs)).
Qed.

Lemma tame_subdivision_block_lot (subdivision_str : string) :
  tame (populate_inv kwargs) (fun _ => True) (subdivision_block_lot subdivision_str).
Proof.
  unfold subdivision_block_lot.
  eapply (tame_bind (populate_inv kwargs)); [apply (tame_index (populate_inv kwargs)) | intros first Hfirst].
  apply findall_block_lot_first in Hfirst as (name & block & lot & ->).
  eapply (tame_bind (populate_inv kwargs)); [now apply tame_setattr | intros _ _].
  eapply (tame_bind (populate_inv kwargs)); [now apply tame_setattr | intros _ _].
  now apply tame_setattr.
Qed.

Ltac tame_prim :=
  first [ apply (tame_index (populate_inv kwargs))
        | apply (tame_getitem (populate_inv kwargs))
        | apply (tame_cells (populate_inv kwargs))
        | apply (tame_stripped (populate_inv kwargs))
        | apply (tame_collapsed (populate_inv kwargs))
        | apply (tame_dot (populate_inv kwargs))
        | apply (tame_dot_find_all (populate_inv kwargs))
        | apply (tame_dot_string (populate_inv kwargs))
        | apply (tame_dot_strip (populate_inv kwargs))
        | apply (tame_subscript (populate_inv kwargs))
        | apply (tame_get (populate_inv kwargs))
        | apply tame_print
        | apply tame_land_size_of
        | apply tame_subdivision_block_lot
        | apply tame_setattr; discriminate
        | apply tame_setattr_propertyid; assumption ].

Ltac tame_step :=
  lazymatch goal with
  | |- tame _ _ (bind _ _) =>
      let a := fresh "a" in
      let H := fresh "H" in
      eapply (tame_bind (populate_inv kwargs)); [tame_prim | intros a H; cbv beta in H]
  end;
  repeat match goal with
         | H : exists _, _ |- _ => destruct H
         | H : _ /\ _ |- _ => destruct H
         | H : Some _ = Some _ |- _ => injection H as H
         end;
  subst.

(** [populate] never raises what the handler catches, leaves the network
    record alone, and returns only for a page with the expected layout and
    a call that carries an identifier. *)
Lemma populate_tame (html : value) :
  tame (populate_inv kwargs)
       (fun _ => exists markup,
            html = VStr markup /\ layout_ok (BeautifulSoup E markup)
            /\ is_Some (kwargs !! "propertyid"))
       (populate E kwargs html).
Proof.
  unfold populate.
  destruct html as [|z|f|markup|d];
    try (intros s; simpl; split; [reflexivity | reflexivity]).
  cbv zeta.
  eapply (tame_bind (populate_inv kwargs) (fun x => x = markup));
    [now apply (tame_ret (populate_inv kwargs)) | intros ? ->].
  repeat tame_step.
  apply (tame_ret (populate_inv kwargs)).
  exists markup. split; [reflexivity|]. split; [|eauto].
  unfold layout_ok, page_rows.
  match goal with H : Soup.find_all "table" _ !! 3%nat = Some _ |- _ => rewrite H end.
  match goal with H : Soup.child "tbody" _ = Some _ |- _ => rewrite H end.
  eexists. split; [reflexivity|].
  intros rc Hrc. unfold expected_cells in Hrc. simpl in Hrc.
  unfold cell_at.
  repeat (destruct Hrc as [<-|Hrc];
          [simpl;
           match goal with H : _ !! _ = Some _ |- _ => rewrite H end;
           eauto |]).
  destruct Hrc.
Qed.

End PopulateFacts.

(** ** Retrying *)

Section RetryFacts.
Import Py Net Spec.

Lemma transient_run_head {A} (answer : nat -> exn + A) (n0 : nat) (e : exn) (es : list exn) :
  transient_run answer n0 (e :: es) -> answer n0 = inl e /\ caught e = true.
Proof. intros H. specialize (H 0%nat e eq_refl). now rewrite Nat.add_0_r in H. Qed.

Lemma transient_run_tail {A} (answer : nat -> exn + A) (n0 : nat) (e : exn) (es : list exn) :
  transient_run answer n0 (e :: es) -> transient_run answer (S n0) es.
Proof.
  intros H i e' Hi. specialize (H (S i) e' Hi).
  now replace (S n0 + i)%nat with (n0 + S i)%nat by lia.
Qed.

Lemma after_retries_nil (c : call) (w : world) :
  after_retries c [] w = record_call c w.
Proof. unfold after_retries, record_call. simpl. now rewrite !List.app_nil_r. Qed.

Lemma after_retries_cons (c : call) (e : exn) (es : list exn) (w : world) :
  after_retries c es (failed_once c e w) = after_retries c (e :: es) w.
Proof. unfold after_retries, failed_once. simpl. now rewrite <- !List.app_assoc. Qed.

Lemma length_failed_once (c : call) (e : exn) (w : world) :
  length (trace (failed_once c e w)) = S (length (trace w)).
Proof. simpl. rewrite List.length_app. simpl. lia. Qed.


End RetryFacts.

(** ** Building entries from rows *)

Section BuilderFacts.
Import Py Spec.
Context {S : Type}.

Ltac row_cases d :=
  repeat match goal with
         | |- context [d !! ?k] => destruct (d !! k) eqn:?; simpl
         end.

Lemma valuation_of_row_cases (d : dict) (s : S) :
  (exists v, ValuationHistory.of_row d s = (s, Return v)
             /\ verbatim d (valuation_columns v))
  \/ (ValuationHistory.of_row d s = (s, Raise KeyError)
      /\ ~ has_keys valuation_keys d).
Proof.
  unfold ValuationHistory.of_row, bind, getitem, has_keys, valuation_keys.
  row_cases d;
    try (right; split; [reflexivity|];
         intros H;
         match goal with
         | Hk : d !! ?k = None |- _ =>
             destruct (proj1 (List.Forall_forall _ _) H k) as [? ?];
             [simpl; tauto | congruence]
         end).
  left. eexists. split; [reflexivity|].
  unfold verbatim, valuation_columns. repeat constructor; assumption.
Qed.

Lemma deed_of_row_cases (d : dict) (s : S) :
  (exists t, DeedTransaction.of_row d s = (s, Return t)
             /\ date_parsed d (DeedTransaction.date t)
             /\ verbatim d (tail (deed_columns t)))
  \/ (exists e, DeedTransaction.of_row d s = (s, Raise e)
                /\ (e = KeyError \/ e = TypeError \/ e = ValueError)).
Proof.
  unfold DeedTransaction.of_row, bind, getitem.
  destruct (d !! "date") as [text|] eqn:Hdate; simpl; [|right; eauto].
  destruct text as [| | |text|];
    try (right; eexists; split; [reflexivity | auto]).
  unfold Strptime.strptime.
  destruct (Strptime.parse text) as [e|dt] eqn:Hparse; simpl.
  - right. exists e. split; [reflexivity|].
    unfold Strptime.parse in Hparse.
    repeat match type of Hparse with
           | context [match ?x with _ => _ end] => destruct x
           end; try discriminate; injection Hparse as <-; auto.
  - row_cases d; try (right; eexists; split; [reflexivity | auto]).
    left. eexists. split; [reflexivity|]. split.
    + exists text, dt. auto.
    + unfold verbatim, deed_columns. simpl. repeat constructor; assumption.
Qed.

Lemma permit_of_row_cases (d : dict) (s : S) :
  (exists p, BuildingPermit.of_row d s = (s, Return p)
             /\ date_parsed d (BuildingPermit.date p)
             /\ verbatim d (tail (permit_columns p)))
  \/ (exists e, BuildingPermit.of_row d s = (s, Raise e)
                /\ (e = KeyError \/ e = TypeError \/ e = ValueError)).
Proof.
  unfold BuildingPermit.of_row, bind, getitem.
  destruct (d !! "date") as [text|] eqn:Hdate; simpl; [|right; eauto].
  destruct text as [| | |text|];
    try (right; eexists; split; [reflexivity | auto]).
  unfold Strptime.strptime.
  destruct (Strptime.parse text) as [e|dt] eqn:Hparse; simpl.
  - right. exists e. split; [reflexivity|].
    unfold Strptime.parse in Hparse.
    repeat match type of Hparse with
           | context [match ?x with _ => _ end] => destruct x
           end; try discriminate; injection Hparse as <-; auto.
  - row_cases d; try (right; eexists; split; [reflexivity | auto]).
    left. eexists. split; [reflexivity|]. split.
    + exists text, dt. auto.
    + unfold verbatim, permit_columns. simpl. repeat constructor; assumption.
Qed.



Lemma valuation_row_step : row_step (ValuationHistory.of_row (S:=S)).
Proof.
  intros d s. destruct (valuation_of_row_cases d s) as [(v & -> & _)|[-> _]]; simpl; auto.
Qed.

Lemma deed_row_step : row_step (DeedTransaction.of_row (S:=S)).
Proof.
  intros d s.
  destruct (deed_of_row_cases d s) as [(v & -> & _)|(e & -> & [->|[->| ->]])]; simpl; auto.
Qed.

Lemma permit_row_step : row_step (BuildingPermit.of_row (S:=S)).
Proof.
  intros d s.
  destruct (permit_of_row_cases d s) as [(v & -> & _)|(e & -> & [->|[->| ->]])]; simpl; auto.
Qed.

Lemma for_each_row_step {A B} (f : A -> M S B) (xs : list A) :
  row_step f -> forall s, fst (for_each f xs s) = s /\ settled (snd (for_each f xs s)).
Proof.
  intros Hf. induction xs as [|x xs IH]; intros s; simpl; [auto|].
  unfold bind. destruct (Hf x s) as [Hs Ho].
  destruct (f x s) as [s1 [y|e|]]; simpl in *; subst; auto.
  destruct (IH s) as [Hs' Ho'].
  destruct (for_each f xs s) as [s2 [ys|e|]]; simpl in *; subst; auto.
Qed.



End BuilderFacts.

(** ** [extractRealPropertyData] *)

Section ExtractFacts.
Import Py Net Spec RealProperty.
Context (E : collaborators).

(** One unfolding of the method: the three branches on [kwargs], and the
    handler. *)
Lemma extractRealPropertyData_step (fuel : nat) (kwargs : dict) (self : t) (w : world) :
  extractRealPropertyData E fuel kwargs (self, w)
  = match kwargs !! "property_html" with
    | Some html => populate E kwargs html (self, w)
    | None =>
        match kwargs !! "propertyid" with
        | Some p =>
            match requests_get E (length (trace w)) p with
            | inr text => populate E kwargs (VStr text) (self, record_call (HttpGet p) w)
            | inl e =>
                if caught e then
                  match fuel with
                  | O => ((self, failed_once (HttpGet p) e w), OutOfFuel)
                  | S fuel' =>
                      extractRealPropertyData E fuel' {[ "propertyid" := p ]}
                        (self, failed_once (HttpGet p) e w)
                  end
                else ((self, record_call (HttpGet p) w), Raise e)
            end
        | None => ((self, w), Return VNone)
        end
    end.
Proof.
  destruct fuel; simpl;
    (destruct (kwargs !! "property_html"); [reflexivity|]);
    (destruct (kwargs !! "propertyid") as [p|]; [|reflexivity]);
    unfold bind, attempt, in_world, outbound; simpl;
    (destruct (requests_get E (length (trace w)) p) as [e|text]; simpl; [|reflexivity]);
    destruct (caught e); reflexivity.
Qed.

Lemma extractRealPropertyData_html (fuel : nat) (kwargs : dict) (html : value) (s : state) :
  kwargs !! "property_html" = Some html ->
  extractRealPropertyData E fuel kwargs s = populate E kwargs html s.
Proof. intros H. destruct s as [self w]. now rewrite extractRealPropertyData_step, H. Qed.

(** [populate] reads [kwargs] only under the key [propertyid]. *)
Lemma populate_kwargs (kwargs kwargs' : dict) (html : value) :
  kwargs !! "propertyid" = kwargs' !! "propertyid" ->
  populate E kwargs html = populate E kwargs' html.
Proof. intros H. unfold populate, getitem. now rewrite H. Qed.


(** Whatever the call ends in, [propertyid] is what it was or the
    identifier passed in, and the valuations are untouched. *)
Lemma extractRealPropertyData_propertyid (fuel : nat) :
  forall kwargs s,
    let s' := fst (extractRealPropertyData E fuel kwargs s) in
    valuations (fst s') = valuations (fst s)
    /\ (attrs (fst s') !! "propertyid" = attrs (fst s) !! "propertyid"
        \/ exists p, kwargs !! "propertyid" = Some p
                     /\ attrs (fst s') !! "propertyid" = Some p).
Proof.
  induction fuel as [|fuel IH]; intros kwargs [self w]; cbv zeta;
    rewrite extractRealPropertyData_step;
    (destruct (kwargs !! "property_html") as [html|];
     [destruct (populate_tame E kwargs html (self, w)) as [(_ & _ & _ & Hv & Hp) _]; now auto|]);
    (destruct (kwargs !! "propertyid") as [p|] eqn:Hid; [|simpl; now auto]);
    (destruct (requests_get E (length (trace w)) p) as [e|text];
     [|destruct (populate_tame E kwargs (VStr text) (self, record_call (HttpGet p) w))
         as [(_ & _ & _ & Hv & Hp) _]; rewrite ?Hid in Hp; simpl in *; now auto]);
    (destruct (caught e); [|simpl; now auto]).
  - simpl. auto.
  - destruct (IH {[ "propertyid" := p ]} (self, failed_once (HttpGet p) e w))
      as [Hv [Hp|(p' & Hp' & Hp)]]; simpl in *; [now auto|].
    rewrite lookup_singleton_eq in Hp'. injection Hp' as <-. eauto.
Qed.

End ExtractFacts.

(** ** The row-list methods *)

Section ListFacts.
Import Py Net Spec.
Context (E : collaborators).

Ltac step_proof answer :=
  intros; destruct_fuel;
  unfold bind, attempt, in_world, outbound; simpl;
  destruct_answer answer
with destruct_fuel :=
  match goal with
  | fuel : nat |- _ => destruct fuel; simpl
  end
with destruct_answer answer :=
  match goal with
  | |- context [answer ?n ?p] =>
      destruct (answer n p) as [e|rows]; simpl; [destruct (caught e)|]; reflexivity
  end.

Lemma valuation_extract_step (fuel : nat) (p : value) (w : world) :
  ValuationHistory.extract E fuel p w
  = match get_valuation_list E (length (trace w)) p with
    | inr rows => for_each ValuationHistory.of_row rows (record_call (GetValuationList p) w)
    | inl e =>
        if caught e then
          match fuel with
          | O => (failed_once (GetValuationList p) e w, OutOfFuel)
          | S fuel' => ValuationHistory.extract E fuel' p (failed_once (GetValuationList p) e w)
          end
        else (record_call (GetValuationList p) w, Raise e)
    end.
Proof. step_proof (get_valuation_list E). Qed.

Lemma deed_extract_step (fuel : nat) (p : value) (w : world) :
  DeedTransaction.extract E fuel p w
  = match get_transaction_list E (length (trace w)) p with
    | inr rows => for_each DeedTransaction.of_row rows (record_call (GetTransactionList p) w)
    | inl e =>
        if caught e then
          match fuel with
          | O => (failed_once (GetTransactionList p) e w, OutOfFuel)
          | S fuel' => DeedTransaction.extract E fuel' p (failed_once (GetTransactionList p) e w)
          end
        else (record_call (GetTransactionList p) w, Raise e)
    end.
Proof. step_proof (get_transaction_list E). Qed.

Lemma permit_extract_step (fuel : nat) (p : value) (w : world) :
  BuildingPermit.extract E fuel p w
  = match get_permit_list E (length (trace w)) p with
    | inr rows => for_each BuildingPermit.of_row rows (record_call (GetPermitList p) w)
    | inl e =>
        if caught e then
          match fuel with
          | O => (failed_once (GetPermitList p) e w, OutOfFuel)
          | S fuel' => BuildingPermit.extract E fuel' p (failed_once (GetPermitList p) e w)
          end
        else (record_call (GetPermitList p) w, Raise e)
    end.
Proof. step_proof (get_permit_list E). Qed.

Lemma extractValuationHistory_step (fuel : nat) (p : value) (self : RealProperty.t) (w : world) :
  RealProperty.extractValuationHistory E fuel p (self, w)
  = match get_valuation_list E (length (trace w)) p with
    | inr rows => RealProperty.store_valuations rows (self, record_call (GetValuationList p) w)
    | inl e =>
        if caught e then
          match fuel with
          | O => ((self, failed_once (GetValuationList p) e w), OutOfFuel)
          | S fuel' =>
              RealProperty.extractValuationHistory E fuel' p
                (self, failed_once (GetValuationList p) e w)
          end
        else ((self, record_call (GetValuationList p) w), Raise e)
    end.
Proof. step_proof (get_valuation_list E). Qed.






Lemma store_valuations_settled (rows : list dict) (s : RealProperty.state) :
  settled (snd (RealProperty.store_valuations rows s))
  /\ RealProperty.attrs (fst (fst (RealProperty.store_valuations rows s)))
     = RealProperty.attrs (fst s)
  /\ snd (fst (RealProperty.store_valuations rows s)) = snd s.
Proof.
  unfold RealProperty.store_valuations, bind.
  destruct (for_each_row_step ValuationHistory.of_row rows valuation_row_step s) as [Hs Ho].
  destruct (for_each ValuationHistory.of_row rows s) as [s1 [l|e|]]; simpl in *; subst; auto.
Qed.


End ListFacts.

(** * Theorems *)

Section About_the_page.
Import Py Net Spec RealProperty.
Context (E : collaborators).

(** C10: a call of [extractRealPropertyData] that supplies neither
    [property_html] nor [propertyid] returns None: it raises nothing, makes
    no call, and leaves every attribute of the record as it was. *)
Theorem C10_neither_argument_returns_None (fuel : nat) (kwargs : dict) (s : state) :
  kwargs !! "property_html" = None ->
  kwargs !! "propertyid" = None ->
  extractRealPropertyData E fuel kwargs s = (s, Return VNone).
Proof.
  intros Hhtml Hid. destruct s as [self w].
  now rewrite extractRealPropertyData_step, Hhtml, Hid.
Qed.





End About_the_page.

Section About_retrying.
Import Py Net Spec.
Context (E : collaborators).



End About_retrying.

Section About_builders.
Import Py Net Spec.
Context (E : collaborators).



End About_builders.

(** ** Greedy groups before a literal *)

Section UnitFacts.
Import Text Re Spec RealProperty.

Lemma strip_prefix_length (l s r : string) :
  strip_prefix l s = Some r -> (String.length l <= String.length s)%nat.
Proof.
  intros H. apply strip_prefix_Some in H as ->. rewrite slength_app. lia.
Qed.

Lemma strip_prefix_shorter (l s : string) :
  (String.length s < String.length l)%nat -> strip_prefix l s = None.
Proof.
  intros Hlt. destruct (strip_prefix l s) as [r|] eqn:H; [|reflexivity].
  apply strip_prefix_length in H. lia.
Qed.

Lemma strip_prefix_self (l : string) : strip_prefix l l = Some "".
Proof. induction l as [|c l IH]; simpl; [reflexivity | now rewrite Ascii.eqb_refl]. Qed.

Lemma length_nonempty (w : string) : w <> "" -> (0 < String.length w)%nat.
Proof. destruct w; [easy | simpl; lia]. Qed.

(** The unit patterns: the group is the whole text before the unit when
    the text ends with the unit. *)
Lemma match_before_unit (l N : string) :
  all is_dot N = true ->
  match_ (Cat (Grp (Star is_dot)) (Lit l)) (N +:+ l) = Some (Found (N +:+ l) [N] "").
Proof.
  intros HN. unfold match_. simpl.
  apply star_over; [exact HN|].
  rewrite star_stop.
  - rewrite strip_prefix_self, !sapp_nil_r. reflexivity.
  - intros w rest Hw Hl. rewrite strip_prefix_shorter; [reflexivity|].
    apply (f_equal String.length) in Hl. rewrite slength_app in Hl.
    apply length_nonempty in Hw. lia.
Qed.

Lemma unit_found (l text : string) :
  has_unit l text <-> is_Some (match_ (Cat (Grp (Star is_dot)) (Lit l)) text).
Proof.
  split.
  - intros (u & v & -> & Hu). rewrite <- sapp_assoc.
    apply (match_complete _ (u +:+ l) ([u] ++ [])).
    apply m_cat; [apply m_grp; now apply m_star | apply m_lit].
  - intros [m Hm]. apply match_sound in Hm as [Htext Hm].
    apply matches_cat_inv in Hm as (u & l' & g1 & g2 & Hw & _ & Hu & Hl).
    apply matches_grp_inv in Hu as (g & _ & Hu).
    apply matches_star_inv in Hu as [Hu _].
    apply matches_lit_inv in Hl as [-> _].
    exists u, (rest m). split; [|exact Hu].
    now rewrite Htext, Hw, sapp_assoc.
Qed.

Lemma unit_not_found (l text : string) :
  ~ has_unit l text -> match_ (Cat (Grp (Star is_dot)) (Lit l)) text = None.
Proof.
  intros H. destruct (match_ _ text) as [m|] eqn:Hm; [|reflexivity].
  destruct H. apply unit_found. rewrite Hm. eauto.
Qed.

Lemma count_none (p q : ascii -> bool) (s : string) :
  (forall c, p c = true -> q c = false) -> all p s = true -> count q s = 0%nat.
Proof.
  intros Hpq. induction s as [|c s IH]; simpl; [reflexivity|].
  intros H. apply andb_prop in H as [Hc Hs]. now rewrite (Hpq c Hc), IH.
Qed.

Lemma numeral_char_facts (c : ascii) :
  numeral_char c = true -> is_q c = false /\ is_dot c = true.
Proof.
  unfold numeral_char, is_q, is_dot, is_digit, between. intros H.
  apply orb_prop in H as [H|H]; [apply orb_prop in H as [H|H]|].
  - apply andb_prop in H as [H1 H2]. apply Nat.leb_le in H1, H2.
    split; [apply Nat.eqb_neq | apply negb_true_iff, Nat.eqb_neq]; lia.
  - apply Nat.eqb_eq in H. rewrite H. auto.
  - apply Nat.eqb_eq in H. rewrite H. auto.
Qed.

Lemma all_impl (p q : ascii -> bool) (s : string) :
  (forall c, p c = true -> q c = true) -> all p s = true -> all q s = true.
Proof.
  intros Hpq. induction s as [|c s IH]; simpl; [reflexivity|].
  intros H. apply andb_prop in H as [Hc Hs]. now rewrite (Hpq c Hc), IH.
Qed.

Lemma numeral_on_one_line (N : string) : numeral N -> all is_dot N = true.
Proof.
  intros [_ H]. revert H. apply all_impl. intros c Hc. now apply numeral_char_facts.
Qed.

(** A numeral followed by " Acres" is not taken for square feet. *)
Lemma acres_not_square_feet (N : string) :
  numeral N -> ~ has_unit " Square Feet" (N +:+ " Acres").
Proof.
  intros [_ HN] (u & v & Heq & _).
  apply (f_equal (count is_q)) in Heq. rewrite !count_app in Heq.
  rewrite (count_none numeral_char is_q N) in Heq; [|apply numeral_char_facts|exact HN].
  change (count is_q " Acres") with 0%nat in Heq.
  change (count is_q " Square Feet") with 1%nat in Heq. lia.
Qed.

End UnitFacts.

(** ** Collapsed white space *)

Section CollapseFacts.
Import Text.

Lemma all_rev_app (p : ascii -> bool) (s1 s2 : string) :
  all p (String.rev_app s1 s2) = all p s1 && all p s2.
Proof.
  revert s2. induction s1 as [|c s1 IH]; intros s2; simpl; [reflexivity|].
  rewrite IH. simpl. destruct (p c), (all p s1), (all p s2); reflexivity.
Qed.

Lemma split_go_words (s : string) :
  forall cur,
    (forall w, cur = Some w -> all in_word w = true) ->
    Forall (fun w => all in_word w = true) (split_go cur s).
Proof.
  induction s as [|c s IH]; intros cur Hcur; simpl.
  - destruct cur as [w|]; [|constructor].
    constructor; [|constructor]. unfold String.rev. rewrite all_rev_app, (Hcur w eq_refl).
    reflexivity.
  - destruct (is_space c) eqn:Hc.
    + destruct cur as [w|].
      * constructor; [|apply IH; discriminate].
        unfold String.rev. rewrite all_rev_app, (Hcur w eq_refl). reflexivity.
      * apply IH. discriminate.
    + apply IH. intros w [= <-]. simpl. unfold in_word at 1. rewrite Hc. simpl.
      destruct cur as [w|]; simpl; [now apply Hcur | reflexivity].
Qed.

Lemma in_word_on_line (c : ascii) : in_word c = true -> is_dot c = true.
Proof.
  unfold in_word, is_space, is_dot, between. intros H.
  apply negb_true_iff, orb_false_iff in H as [H _].
  apply negb_true_iff, Nat.eqb_neq. intros Heq. rewrite Heq in H. discriminate.
Qed.

Lemma join_on_one_line (ws : list string) :
  Forall (fun w => all in_word w = true) ws -> all is_dot (join " " ws) = true.
Proof.
  induction 1 as [|w ws Hw Hws IH]; [reflexivity|].
  apply (all_impl _ _ _ in_word_on_line) in Hw.
  destruct ws as [|w' ws]; [exact Hw|].
  change (join " " (w :: w' :: ws)) with (w +:+ " " +:+ join " " (w' :: ws)).
  now rewrite !all_app, Hw, IH.
Qed.

(** A collapsed text has no line feed: [.] matches each of its characters. *)
Lemma collapse_on_one_line (s : string) : all is_dot (collapse s) = true.
Proof.
  apply join_on_one_line, split_go_words. discriminate.
Qed.

End CollapseFacts.

Section About_land_size.
Import Py Net Spec RealProperty.
Context (E : collaborators).

(** C5: for a numeral N, the text "N Square Feet" sets [land_size] to N
    as [get_float] converts it, unscaled; the text "N Acres" sets it to that
    number times 43560; a text with neither unit after its first words
    assigns nothing, so the field stays as it was (unset on a fresh
    record). *)
Theorem C5_land_size_in_square_feet (N text : string) (x : float) (s : state) :
  (numeral N ->
   land_size_of E (N +:+ " Square Feet") s
   = ((with_land_size (of_float (get_float E N)) (fst s), snd s), Return tt))
  /\ (numeral N -> get_float E N = Some x ->
      land_size_of E (N +:+ " Acres") s
      = ((with_land_size (VFloat (PrimFloat.mul x (PrimFloat.of_uint63 43560))) (fst s), snd s),
         Return tt))
  /\ (~ has_unit " Square Feet" text -> ~ has_unit " Acres" text ->
      land_size_of E text s = (s, Return tt)
      /\ (getattr "land_size" (fst s) = VNone ->
          getattr "land_size" (fst (fst (land_size_of E text s))) = VNone)).
Proof.
  split; [|split].
  - intros HN. unfold land_size_of, square_feet_re.
    now rewrite (match_before_unit " Square Feet" N (numeral_on_one_line N HN)).
  - intros HN Hx. unfold land_size_of, square_feet_re, acres_re.
    rewrite (unit_not_found " Square Feet" _ (acres_not_square_feet N HN)).
    rewrite (match_before_unit " Acres" N (numeral_on_one_line N HN)).
    unfold bind. simpl. now rewrite Hx.
  - intros Hsq Hac. unfold land_size_of, square_feet_re, acres_re.
    rewrite (unit_not_found _ _ Hsq), (unit_not_found _ _ Hac). auto.
Qed.

End About_land_size.

(** ** The subdivision pattern *)

Section BlockLotFacts.
Import Text Re Spec RealProperty.
Context {R : Type}.

(** A greedy [+] takes the run [u] whole when the rest then matches. *)
Lemma plus_over (p : ascii -> bool) (u v : string) (k : cont (R:=R)) (x : R) :
  u <> "" -> all p u = true ->
  star p v (fun w rest => k (u +:+ w) [] rest) = Some x ->
  exec (Plus p) (u +:+ v) k = Some x.
Proof.
  destruct u as [|c u]; [easy|]. intros _ Hu Hk. simpl in Hu.
  apply andb_prop in Hu as [Hc Hu]. rewrite sapp_cons. simpl. rewrite Hc.
  now apply star_over.
Qed.

Lemma exec_cat (r1 r2 : regex) (s : string) (k : cont (R:=R)) :
  exec (Cat r1 r2) s k
  = exec r1 s (fun u1 g1 rest1 =>
      exec r2 rest1 (fun u2 g2 rest2 => k (u1 +:+ u2) (g1 ++ g2) rest2)).
Proof. reflexivity. Qed.

Lemma exec_grp (r : regex) (s : string) (k : cont (R:=R)) :
  exec (Grp r) s k = exec r s (fun u gs rest => k u (u :: gs) rest).
Proof. reflexivity. Qed.

Lemma exec_lit (l s : string) (k : cont (R:=R)) :
  exec (Lit l) (l +:+ s) k = k l [] s.
Proof. simpl. now rewrite strip_prefix_app. Qed.

Lemma star_at_end (p : ascii -> bool) (k : string -> string -> option R) :
  star p "" k = k "" "".
Proof. reflexivity. Qed.

Lemma star_at_blank (p : ascii -> bool) (v : string) (k : string -> string -> option R) :
  p " "%char = false -> star p (String " " v) k = k "" (String " " v).
Proof. intros H. simpl. now rewrite H. Qed.

Lemma alnum_no_blank (s : string) : alnum s -> count is_blank s = 0%nat.
Proof.
  intros [_ H]. revert H. apply count_none.
  intros c Hc. unfold is_alnum, is_blank, between in *.
  apply Nat.eqb_neq. intros Heq. rewrite Heq in Hc. discriminate.
Qed.

(** After the first group nothing shorter than the tail " Block b Lot l"
    can start with the rest of the pattern. *)
Lemma block_lot_tail_is_tight (block lot w rest : string) (k : cont (R:=R)) :
  alnum block -> alnum lot -> w <> "" ->
  " Block " +:+ block +:+ " Lot " +:+ lot = w +:+ rest ->
  exec (Cat (Lit " Block ")
          (Cat (Grp (Plus is_alnum)) (Cat (Lit " Lot ") (Grp (Plus is_alnum))))) rest k
  = None.
Proof.
  intros Hb Hl Hw Heq.
  destruct (exec _ rest k) as [x|] eqn:Hx; [|reflexivity]. exfalso.
  apply exec_sound in Hx as (u & gs & rest' & -> & Hm & _).
  apply matches_cat_inv in Hm as (l1 & u1 & ? & ? & -> & _ & Hl1 & Hm).
  apply matches_lit_inv in Hl1 as [-> _].
  apply matches_cat_inv in Hm as (b' & u2 & ? & ? & -> & _ & _ & Hm).
  apply matches_cat_inv in Hm as (l2 & l' & ? & ? & -> & _ & Hl2 & _).
  apply matches_lit_inv in Hl2 as [-> _].
  assert (Hblank : (0 < count is_blank w)%nat).
  { destruct w as [|c w]; [easy|].
    change (" Block " +:+ block +:+ " Lot " +:+ lot)
      with (String " " ("Block " +:+ block +:+ " Lot " +:+ lot)) in Heq.
    rewrite sapp_cons in Heq. injection Heq as <- _. simpl. lia. }
  apply (f_equal (count is_blank)) in Heq. rewrite !count_app in Heq.
  rewrite (alnum_no_blank block Hb), (alnum_no_blank lot Hl) in Heq.
  change (count is_blank " Block ") with 2%nat in Heq.
  change (count is_blank " Lot ") with 2%nat in Heq.
  lia.
Qed.

End BlockLotFacts.

Section BlockLotMatch.
Import Text Re Spec RealProperty.

(** On a text of exactly the shape, the match at the start captures the
    three parts. *)
Lemma match_block_lot (name block lot : string) :
  name <> "" -> all is_dot name = true -> alnum block -> alnum lot ->
  match_ block_lot_re (name +:+ " Block " +:+ block +:+ " Lot " +:+ lot)
  = Some (Found (name +:+ " Block " +:+ block +:+ " Lot " +:+ lot) [name; block; lot] "").
Proof.
  intros Hn Hd Hb Hl. unfold match_, block_lot_re.
  rewrite exec_cat, exec_grp. apply plus_over; [exact Hn | exact Hd |].
  rewrite star_stop.
  2:{ intros w rest Hw Heq. now apply (block_lot_tail_is_tight block lot w rest). }
  rewrite exec_cat, exec_lit, exec_cat, exec_grp.
  destruct Hb as [Hb Hb'], Hl as [Hl Hl'].
  apply plus_over; [exact Hb | exact Hb' |].
  change (" Lot " +:+ lot) with (String " " ("Lot " +:+ lot)).
  rewrite star_at_blank by reflexivity.
  change (String " " ("Lot " +:+ lot)) with (" Lot " +:+ lot).
  rewrite exec_cat, exec_lit, exec_grp.
  rewrite <- (sapp_nil_r lot) at 1.
  apply plus_over; [exact Hl | exact Hl' |].
  rewrite star_at_end. now rewrite !sapp_nil_r.
Qed.

End BlockLotMatch.

Section About_subdivision.
Import Py Net Spec RealProperty.

Lemma subdivision_block_lot_first (text name block lot : string) (rest : list (list string))
      (s : state) :
  Re.findall block_lot_re text = [name; block; lot] :: rest ->
  subdivision_block_lot text s
  = ((with_block_lot name block lot (fst s), snd s), Return tt).
Proof.
  intros H. unfold subdivision_block_lot, bind, index. rewrite H. reflexivity.
Qed.

(** C6: on a text "<name> Block <alnum> Lot <alnum>" the three attributes
    are set to exactly the name, the block and the lot, each as a string
    (the name on one line, which the collapsed text of the cell always is);
    on any text that contains such a part the three attributes are the
    groups of a part of that shape; on a text without one the statement
    raises [IndexError] and assigns nothing. *)
Theorem C6_subdivision_block_lot (name block lot text : string) (s : state) :
  (name <> "" -> Text.all Text.is_dot name = true -> alnum block -> alnum lot ->
   subdivision_block_lot (name +:+ " Block " +:+ block +:+ " Lot " +:+ lot) s
   = ((with_block_lot name block lot (fst s), snd s), Return tt))
  /\ (forall cell,
        Text.collapse cell = name +:+ " Block " +:+ block +:+ " Lot " +:+ lot ->
        name <> "" -> alnum block -> alnum lot ->
        subdivision_block_lot (Text.collapse cell) s
        = ((with_block_lot name block lot (fst s), snd s), Return tt))
  /\ (block_lot_shaped text ->
      exists pre n b l post,
        text = pre +:+ n +:+ " Block " +:+ b +:+ " Lot " +:+ l +:+ post
        /\ alnum b /\ alnum l
        /\ subdivision_block_lot text s
           = ((with_block_lot n b l (fst s), snd s), Return tt))
  /\ (~ block_lot_shaped text ->
      subdivision_block_lot text s = (s, Raise IndexError)).
Proof.
  assert (Hexact : forall n b l,
             n <> "" -> Text.all Text.is_dot n = true -> alnum b -> alnum l ->
             subdivision_block_lot (n +:+ " Block " +:+ b +:+ " Lot " +:+ l) s
             = ((with_block_lot n b l (fst s), snd s), Return tt)).
  { intros n b l Hn Hd Hb Hl.
    pose proof (findall_at_start _ _ _ (match_block_lot n b l Hn Hd Hb Hl)) as Hh.
    simpl in Hh.
    destruct (Re.findall block_lot_re _) as [|first rest] eqn:Hf; [discriminate|].
    injection Hh as ->. now apply (subdivision_block_lot_first _ _ _ _ rest). }
  split; [|split; [|split]].
  - apply Hexact.
  - intros cell Hcell Hn Hb Hl. rewrite Hcell. apply Hexact; try assumption.
    pose proof (collapse_on_one_line cell) as Hline.
    rewrite Hcell, all_app in Hline. now apply andb_prop in Hline.
  - intros Hshaped. apply block_lot_found in Hshaped.
    destruct (Re.findall block_lot_re text) as [|first rest] eqn:Hf; [easy|].
    assert (Hh : head (Re.findall block_lot_re text) = Some first) by now rewrite Hf.
    apply findall_from_head in Hh as (pre & t & m & -> & Hm & <-).
    apply match_sound in Hm as [Ht Hm].
    apply block_lot_matches in Hm as (n & b & l & Hg & Hw & _ & _ & Hb & Hl).
    exists pre, n, b, l, (Re.rest m). rewrite Hg in Hf.
    split; [now rewrite Ht, Hw, !sapp_assoc|]. split; [exact Hb|]. split; [exact Hl|].
    now apply (subdivision_block_lot_first _ _ _ _ rest).
  - intros Hnot. unfold subdivision_block_lot, bind, index.
    destruct (Re.findall block_lot_re text) as [|first rest] eqn:Hf; [reflexivity|].
    destruct Hnot. apply block_lot_found. now rewrite Hf.
Qed.

End About_subdivision.

(** ** The pattern of the date format *)

Section DateFacts.
Import Text Re Spec Strptime.


























End DateFacts.

Section About_dates.
Import Py Net Spec.
Context (E : collaborators).




End About_dates.

(** * Concrete runs *)

Section Instances.
Import Py Net Spec RealProperty.









(** A quarter of an acre is 10890 square feet; 7000 square feet stay 7000. *)
Lemma C5_witness :
  numeral "0.25" /\ get_float Sample.world_ "0.25" = Some 0.25%float
  /\ land_size_of Sample.world_ "0.25 Acres" (fresh, quiet)
     = ((with_land_size (VFloat 10890%float) fresh, quiet), Return tt)
  /\ land_size_of Sample.world_ "7000 Square Feet" (fresh, quiet)
     = ((with_land_size (VFloat 7000%float) fresh, quiet), Return tt).
Proof.
  assert (H1 : numeral "0.25") by (split; [discriminate | reflexivity]).
  assert (H2 : numeral "7000") by (split; [discriminate | reflexivity]).
  split; [exact H1|]. split; [reflexivity|]. split.
  - apply (C5_land_size_in_square_feet Sample.world_ "0.25" "" 0.25%float (fresh, quiet));
      [exact H1 | reflexivity].
  - apply (C5_land_size_in_square_feet Sample.world_ "7000" "" 0%float (fresh, quiet)).
    exact H2.
Defined.

(** The example of the specification, also with irregular white space in
    the cell. *)
Lemma C6_witness :
  subdivision_block_lot "Elm Heights Block 3A Lot 12" (fresh, quiet)
  = ((with_block_lot "Elm Heights" "3A" "12" fresh, quiet), Return tt)
  /\ subdivision_block_lot (Text.collapse "Elm   Heights Block 3A Lot 12 ") (fresh, quiet)
     = ((with_block_lot "Elm Heights" "3A" "12" fresh, quiet), Return tt).
Proof.
  destruct (C6_subdivision_block_lot "Elm Heights" "3A" "12" "" (fresh, quiet))
    as (Hexact & Hcell & _).
  split.
  - apply Hexact; [discriminate | reflexivity | split; [discriminate | reflexivity] ..].
  - apply Hcell; [reflexivity | discriminate | split; [discriminate | reflexivity] ..].
Defined.




(** No keyword argument at all. *)
Lemma C10_witness :
  extractRealPropertyData Sample.world_ 3 ∅ (fresh, quiet) = ((fresh, quiet), Return VNone).
Proof. apply C10_neither_argument_returns_None; reflexivity. Defined.

End Instances.
(** * Further properties *)

(** ** Retrying *)

Section RetriedFacts.
Import Py Net Spec Behaviour.

Lemma retried_nil (c : call) (w : world) : retried c [] w = w.
Proof. destruct w. unfold retried. simpl. now rewrite !List.app_nil_r. Qed.

Lemma retried_cons (c : call) (e : exn) (es : list exn) (w : world) :
  retried c es (failed_once c e w) = retried c (e :: es) w.
Proof. unfold retried, failed_once. simpl. now rewrite <- !List.app_assoc. Qed.

Lemma record_call_retried (c : call) (es : list exn) (w : world) :
  record_call c (retried c es w) = after_retries c es w.
Proof.
  unfold record_call, retried, after_retries. simpl.
  now rewrite <- List.app_assoc, <- replicate_S_end.
Qed.

Lemma length_trace_retried (c : call) (es : list exn) (w : world) :
  length (trace (retried c es w)) = (length (trace w) + length es)%nat.
Proof. simpl. now rewrite List.length_app, length_replicate. Qed.

End RetriedFacts.

Section RetryShapes.
Import Py Net Spec Behaviour.
Context (E : collaborators).

(** The calls that fail with a caught class are skipped one by one: what
    remains is the same method, in the world the handler left. *)
Ltac skip_proof step :=
  let es := fresh "es" in
  let e := fresh "e" in
  let IH := fresh "IH" in
  intros es; induction es as [|e es IH]; intros fuel w Hrun Hfuel;
  [ now rewrite retried_nil, Nat.sub_0_r
  | destruct fuel as [|fuel]; [simpl in Hfuel; lia|];
    destruct (transient_run_head _ _ _ _ Hrun) as [Hfail Hcaught];
    apply transient_run_tail in Hrun;
    rewrite step, Hfail, Hcaught, IH;
    [ now rewrite retried_cons
    | now rewrite length_failed_once
    | simpl in Hfuel; lia ] ].

Lemma valuation_extract_skip (p : value) :
  forall (es : list exn) fuel w,
    transient_run (fun n => get_valuation_list E n p) (length (trace w)) es ->
    length es <= fuel ->
    ValuationHistory.extract E fuel p w
    = ValuationHistory.extract E (fuel - length es) p (retried (GetValuationList p) es w).
Proof. skip_proof valuation_extract_step. Qed.

Lemma deed_extract_skip (p : value) :
  forall (es : list exn) fuel w,
    transient_run (fun n => get_transaction_list E n p) (length (trace w)) es ->
    length es <= fuel ->
    DeedTransaction.extract E fuel p w
    = DeedTransaction.extract E (fuel - length es) p (retried (GetTransactionList p) es w).
Proof. skip_proof deed_extract_step. Qed.

Lemma permit_extract_skip (p : value) :
  forall (es : list exn) fuel w,
    transient_run (fun n => get_permit_list E n p) (length (trace w)) es ->
    length es <= fuel ->
    BuildingPermit.extract E fuel p w
    = BuildingPermit.extract E (fuel - length es) p (retried (GetPermitList p) es w).
Proof. skip_proof permit_extract_step. Qed.

Lemma extractValuationHistory_skip (p : value) (self : RealProperty.t) :
  forall (es : list exn) fuel w,
    transient_run (fun n => get_valuation_list E n p) (length (trace w)) es ->
    length es <= fuel ->
    RealProperty.extractValuationHistory E fuel p (self, w)
    = RealProperty.extractValuationHistory E (fuel - length es) p
        (self, retried (GetValuationList p) es w).
Proof. skip_proof extractValuationHistory_step. Qed.

End RetryShapes.

Section RetryTheorems.
Import Py Net Spec Behaviour.
Context (E : collaborators).

Lemma extractRealPropertyData_kwargs (fuel : nat) (kwargs kwargs' : dict) (s : RealProperty.state) :
  kwargs !! "property_html" = kwargs' !! "property_html" ->
  kwargs !! "propertyid" = kwargs' !! "propertyid" ->
  RealProperty.extractRealPropertyData E fuel kwargs s
  = RealProperty.extractRealPropertyData E fuel kwargs' s.
Proof.
  intros Hhtml Hid. destruct s as [self w].
  assert (Hpop : forall html,
             RealProperty.populate E kwargs html = RealProperty.populate E kwargs' html)
    by (intros html; now apply populate_kwargs).
  rewrite !extractRealPropertyData_step, Hhtml, Hid.
  destruct (kwargs' !! "property_html") as [html|]; [now rewrite Hpop|].
  destruct (kwargs' !! "propertyid") as [p|]; [|reflexivity].
  destruct (requests_get E (length (trace w)) p) as [e|text]; [reflexivity|].
  now rewrite Hpop.
Qed.

Lemma extractRealPropertyData_skip (p : value) (kwargs : dict) (self : RealProperty.t) :
  kwargs !! "property_html" = None ->
  kwargs !! "propertyid" = Some p ->
  forall (es : list exn) fuel w,
    transient_run (fun n => requests_get E n p) (length (trace w)) es ->
    length es <= fuel ->
    RealProperty.extractRealPropertyData E fuel kwargs (self, w)
    = RealProperty.extractRealPropertyData E (fuel - length es) kwargs
        (self, retried (HttpGet p) es w).
Proof.
  intros Hhtml Hid es. induction es as [|e es IH]; intros fuel w Hrun Hfuel.
  - now rewrite retried_nil, Nat.sub_0_r.
  - destruct fuel as [|fuel]; [simpl in Hfuel; lia|].
    destruct (transient_run_head _ _ _ _ Hrun) as [Hfail Hcaught].
    apply transient_run_tail in Hrun.
    rewrite extractRealPropertyData_step, Hhtml, Hid, Hfail, Hcaught.
    rewrite (extractRealPropertyData_kwargs fuel {[ "propertyid" := p ]} kwargs);
      [|now rewrite Hhtml|now rewrite Hid].
    rewrite IH; [now rewrite retried_cons|now rewrite length_failed_once|simpl in Hfuel; lia].
Qed.

Ltac uncaught_proof skip step :=
  intros Hrun Hanswer;
  erewrite skip by eassumption;
  rewrite step, length_trace_retried, Hanswer;
  match goal with H : caught _ = false |- _ => rewrite H end;
  now rewrite record_call_retried.

(** X1: an exception of the outbound call that is none of the five classes
    of the handler is not retried, also when it comes after failures that
    were: after [k] caught failures and then the exception [e], each
    extraction method raises [e] to its caller, having made [k+1] calls,
    printed [k] lines and slept [k] times; the object is as it was. *)
Theorem uncaught_error_ends_the_retries (p : value) (es : list exn) (e : exn)
    (fuel : nat) (w : world) :
  length es <= fuel ->
  caught e = false ->
  (forall kwargs self,
      kwargs !! "property_html" = None ->
      kwargs !! "propertyid" = Some p ->
      transient_run (fun n => requests_get E n p) (length (trace w)) es ->
      requests_get E (length (trace w) + length es) p = inl e ->
      RealProperty.extractRealPropertyData E fuel kwargs (self, w)
      = ((self, after_retries (HttpGet p) es w), Raise e))
  /\ (forall self,
      transient_run (fun n => get_valuation_list E n p) (length (trace w)) es ->
      get_valuation_list E (length (trace w) + length es) p = inl e ->
      RealProperty.extractValuationHistory E fuel p (self, w)
      = ((self, after_retries (GetValuationList p) es w), Raise e))
  /\ (transient_run (fun n => get_valuation_list E n p) (length (trace w)) es ->
      get_valuation_list E (length (trace w) + length es) p = inl e ->
      ValuationHistory.extract E fuel p w
      = (after_retries (GetValuationList p) es w, Raise e))
  /\ (transient_run (fun n => get_transaction_list E n p) (length (trace w)) es ->
      get_transaction_list E (length (trace w) + length es) p = inl e ->
      DeedTransaction.extract E fuel p w
      = (after_retries (GetTransactionList p) es w, Raise e))
  /\ (transient_run (fun n => get_permit_list E n p) (length (trace w)) es ->
      get_permit_list E (length (trace w) + length es) p = inl e ->
      BuildingPermit.extract E fuel p w
      = (after_retries (GetPermitList p) es w, Raise e)).
Proof.
  intros Hfuel Hcaught. repeat split.
  - intros kwargs self Hhtml Hid Hrun Hanswer.
    rewrite (extractRealPropertyData_skip p kwargs self Hhtml Hid es fuel w Hrun Hfuel).
    rewrite extractRealPropertyData_step, Hhtml, Hid, length_trace_retried, Hanswer, Hcaught.
    now rewrite record_call_retried.
  - intros self. uncaught_proof extractValuationHistory_skip extractValuationHistory_step.
  - uncaught_proof valuation_extract_skip valuation_extract_step.
  - uncaught_proof deed_extract_skip deed_extract_step.
  - uncaught_proof permit_extract_skip permit_extract_step.
Qed.








End RetryTheorems.

Section EveryRun.
Import Py Net Spec Behaviour.
Context (E : collaborators).

Lemma retry_shape_answered {A} (c : call) (fuel : nat) (w : world) (o : outcome A) :
  settled o -> retry_shape c fuel w (record_call c w) o.
Proof.
  intros Ho. exists []. split; [constructor|]. left.
  rewrite after_retries_nil. repeat split; [assumption | apply Nat.le_0_l].
Qed.

Lemma retry_shape_exhausted {A} (c : call) (e : exn) (w : world) :
  caught e = true -> retry_shape (A:=A) c 0 w (failed_once c e w) OutOfFuel.
Proof.
  intros He. exists [e]. split; [now constructor|]. right. repeat split.
Qed.

Lemma retry_shape_again {A} (c : call) (e : exn) (fuel : nat) (w w' : world) (o : outcome A) :
  caught e = true ->
  retry_shape c fuel (failed_once c e w) w' o -> retry_shape c (S fuel) w w' o.
Proof.
  intros He (es & Hall & [(Hs & Hw & Hl)|(Ho & Hw & Hl)]);
    exists (e :: es); (split; [now constructor|]).
  - left. rewrite <- after_retries_cons. repeat split; [assumption | assumption | simpl; lia].
  - right. rewrite <- retried_cons. repeat split; [assumption | assumption | simpl; lia].
Qed.

Lemma valuation_extract_shape (p : value) :
  forall fuel w,
    retry_shape (GetValuationList p) fuel w
      (fst (ValuationHistory.extract E fuel p w)) (snd (ValuationHistory.extract E fuel p w)).
Proof.
  intros fuel. induction fuel as [|fuel IH]; intros w; rewrite valuation_extract_step;
    (destruct (get_valuation_list E (length (trace w)) p) as [e|rows];
     [destruct (caught e) eqn:Hcaught|]);
    try (now apply retry_shape_answered);
    try (destruct (for_each_row_step ValuationHistory.of_row rows valuation_row_step
                     (record_call (GetValuationList p) w)) as [-> Hs];
         now apply retry_shape_answered).
  - now apply retry_shape_exhausted.
  - now apply (retry_shape_again _ e), IH.
Qed.

Lemma deed_extract_shape (p : value) :
  forall fuel w,
    retry_shape (GetTransactionList p) fuel w
      (fst (DeedTransaction.extract E fuel p w)) (snd (DeedTransaction.extract E fuel p w)).
Proof.
  intros fuel. induction fuel as [|fuel IH]; intros w; rewrite deed_extract_step;
    (destruct (get_transaction_list E (length (trace w)) p) as [e|rows];
     [destruct (caught e) eqn:Hcaught|]);
    try (now apply retry_shape_answered);
    try (destruct (for_each_row_step DeedTransaction.of_row rows deed_row_step
                     (record_call (GetTransactionList p) w)) as [-> Hs];
         now apply retry_shape_answered).
  - now apply retry_shape_exhausted.
  - now apply (retry_shape_again _ e), IH.
Qed.

Lemma permit_extract_shape (p : value) :
  forall fuel w,
    retry_shape (GetPermitList p) fuel w
      (fst (BuildingPermit.extract E fuel p w)) (snd (BuildingPermit.extract E fuel p w)).
Proof.
  intros fuel. induction fuel as [|fuel IH]; intros w; rewrite permit_extract_step;
    (destruct (get_permit_list E (length (trace w)) p) as [e|rows];
     [destruct (caught e) eqn:Hcaught|]);
    try (now apply retry_shape_answered);
    try (destruct (for_each_row_step BuildingPermit.of_row rows permit_row_step
                     (record_call (GetPermitList p) w)) as [-> Hs];
         now apply retry_shape_answered).
  - now apply retry_shape_exhausted.
  - now apply (retry_shape_again _ e), IH.
Qed.

Lemma extractValuationHistory_shape (p : value) (self : RealProperty.t) :
  forall fuel w,
    retry_shape (GetValuationList p) fuel w
      (snd (fst (RealProperty.extractValuationHistory E fuel p (self, w))))
      (snd (RealProperty.extractValuationHistory E fuel p (self, w))).
Proof.
  intros fuel. induction fuel as [|fuel IH]; intros w; rewrite extractValuationHistory_step;
    (destruct (get_valuation_list E (length (trace w)) p) as [e|rows];
     [destruct (caught e) eqn:Hcaught|]);
    try (now apply retry_shape_answered);
    try (destruct (store_valuations_settled rows (self, record_call (GetValuationList p) w))
           as (Hs & _ & ->);
         now apply retry_shape_answered).
  - now apply retry_shape_exhausted.
  - now apply (retry_shape_again _ e), IH.
Qed.

(** X3: whatever the collaborator answers, a run of a row-list method
    touches the world in one way only: it repeats its own call for the
    identifier it was given, once more than the handler caught a failure,
    and after each caught failure prints one line and sleeps ten seconds.
    It makes no other call, sleeps for no other reason, and the loop over
    the rows leaves no trace. *)
Theorem every_run_is_a_run_of_retries (p : value) (fuel : nat) (w : world) :
  retry_shape (GetValuationList p) fuel w
    (fst (ValuationHistory.extract E fuel p w)) (snd (ValuationHistory.extract E fuel p w))
  /\ retry_shape (GetTransactionList p) fuel w
       (fst (DeedTransaction.extract E fuel p w)) (snd (DeedTransaction.extract E fuel p w))
  /\ retry_shape (GetPermitList p) fuel w
       (fst (BuildingPermit.extract E fuel p w)) (snd (BuildingPermit.extract E fuel p w))
  /\ forall self,
       retry_shape (GetValuationList p) fuel w
         (snd (fst (RealProperty.extractValuationHistory E fuel p (self, w))))
         (snd (RealProperty.extractValuationHistory E fuel p (self, w))).
Proof.
  split; [apply valuation_extract_shape|].
  split; [apply deed_extract_shape|].
  split; [apply permit_extract_shape|].
  intros self. apply extractValuationHistory_shape.
Qed.

End EveryRun.

(** ** The keyword arguments *)

Section Keywords.
Import Py Net Spec Behaviour.
Context (E : collaborators).

(** X4: when [property_html] is supplied the markup is used as it is,
    whether or not [propertyid] is supplied too: no request is made, nothing
    is retried and nothing sleeps, whatever the network would have answered;
    the outcome is a value or an error of the parsing code. *)
Theorem markup_is_not_fetched (fuel : nat) (kwargs : dict) (html : value)
    (s : RealProperty.state) :
  kwargs !! "property_html" = Some html ->
  let run := RealProperty.extractRealPropertyData E fuel kwargs s in
  trace (snd (fst run)) = trace (snd s)
  /\ slept (snd (fst run)) = slept (snd s)
  /\ match snd run with
     | Return _ => is_Some (kwargs !! "propertyid")
     | Raise e => parse_error e = true
     | OutOfFuel => False
     end.
Proof.
  intros Hhtml run. subst run.
  rewrite (extractRealPropertyData_html E fuel kwargs html s Hhtml).
  destruct (populate_tame E kwargs html s) as [(Htrace & Hslept & _) Hout].
  repeat split; [assumption | assumption |].
  destruct (snd (RealProperty.populate E kwargs html s)) as [v|e|]; auto.
  now destruct Hout as (markup & _ & _ & Hid).
Qed.

(** X5: [extractRealPropertyData] reads its keyword arguments under the two
    names [property_html] and [propertyid] only: any other keyword is
    accepted and ignored, in the first call and in every retry. *)
Theorem other_keywords_are_ignored (fuel : nat) (kwargs : dict) (key : string)
    (v : value) (s : RealProperty.state) :
  key <> "property_html" ->
  key <> "propertyid" ->
  RealProperty.extractRealPropertyData E fuel (<[key := v]> kwargs) s
  = RealProperty.extractRealPropertyData E fuel kwargs s.
Proof.
  intros Hhtml Hid.
  apply extractRealPropertyData_kwargs; now apply lookup_insert_ne.
Qed.

End Keywords.

(** ** What the page extraction assigns *)

Section Frame.
Import Py Net Spec Behaviour RealProperty.
Context (E : collaborators) (name : string).
Hypothesis Hname : name ∉ assigned_names.

#[local] Instance keeps_refl : Reflexive (keeps name).
Proof. now intros s. Qed.

#[local] Instance keeps_trans : Transitive (keeps name).
Proof. intros s1 s2 s3 H1 H2. unfold keeps in *. now rewrite H2. Qed.

Lemma keeps_setattr (n : string) (v : value) :
  n ∈ assigned_names -> tame (keeps name) (fun _ => True) (setattr n v).
Proof.
  intros Hn s. split; [|exact Logic.I].
  unfold keeps. simpl. apply lookup_insert_ne. now intros ->.
Qed.

Lemma keeps_print (v : value) :
  tame (keeps name) (fun _ => True) (in_world (X:=RealProperty.t) (print (Printed v))).
Proof. intros s. split; [reflexivity | exact Logic.I]. Qed.

Ltac assigned := repeat first [apply list_elem_of_here | apply list_elem_of_further].

Lemma keeps_land_size_of (land_size_str : string) :
  tame (keeps name) (fun _ => True) (land_size_of E land_size_str).
Proof.
  unfold land_size_of.
  destruct (Re.match_ square_feet_re land_size_str) as [m|].
  - eapply (tame_bind (keeps name)); [apply (tame_group_1 (keeps name)) | intros g _].
    apply keeps_setattr. assigned.
  - destruct (Re.match_ acres_re land_size_str) as [m|].
    + eapply (tame_bind (keeps name)); [apply (tame_group_1 (keeps name)) | intros g _].
      eapply (tame_bind (keeps name)); [apply (tame_times_43560 (keeps name)) | intros v _].
      apply keeps_setattr. assigned.
    + now apply (tame_ret (keeps name)).
Qed.

Lemma keeps_subdivision_block_lot (subdivision_str : string) :
  tame (keeps name) (fun _ => True) (subdivision_block_lot subdivision_str).
Proof.
  unfold subdivision_block_lot.
  eapply (tame_bind (keeps name)); [apply (tame_index (keeps name)) | intros first Hfirst].
  apply findall_block_lot_first in Hfirst as (subdivision & block & lot & ->).
  eapply (tame_bind (keeps name)); [apply keeps_setattr; assigned | intros _ _].
  eapply (tame_bind (keeps name)); [apply keeps_setattr; assigned | intros _ _].
  apply keeps_setattr. assigned.
Qed.

Ltac keeps_prim :=
  first [ apply (tame_index (keeps name))
        | apply (tame_getitem (keeps name))
        | apply (tame_cells (keeps name))
        | apply (tame_stripped (keeps name))
        | apply (tame_collapsed (keeps name))
        | apply (tame_dot (keeps name))
        | apply (tame_dot_find_all (keeps name))
        | apply (tame_dot_string (keeps name))
        | apply (tame_dot_strip (keeps name))
        | apply (tame_subscript (keeps name))
        | apply (tame_get (keeps name))
        | apply keeps_print
        | apply keeps_land_size_of
        | apply keeps_subdivision_block_lot
        | apply keeps_setattr; assigned ].

Ltac keeps_step :=
  lazymatch goal with
  | |- tame _ _ (bind _ _) =>
      eapply (tame_bind (keeps name)); [keeps_prim | intros ? _]
  end.

Lemma populate_keeps (kwargs : dict) (html : value) :
  tame (keeps name) (fun _ => True) (populate E kwargs html).
Proof.
  unfold populate.
  destruct html as [|z|f|markup|d];
    try (intros s; simpl; split; [reflexivity | reflexivity]).
  cbv zeta.
  eapply (tame_bind (keeps name) (fun _ => True));
    [now apply (tame_ret (keeps name)) | intros ? _].
  repeat keeps_step.
  now apply (tame_ret (keeps name)).
Qed.

Lemma extractRealPropertyData_keeps (fuel : nat) :
  forall kwargs s, keeps name s (fst (extractRealPropertyData E fuel kwargs s)).
Proof.
  induction fuel as [|fuel IH]; intros kwargs [self w];
    rewrite extractRealPropertyData_step;
    (destruct (kwargs !! "property_html") as [html|]; [apply populate_keeps|]);
    (destruct (kwargs !! "propertyid") as [p|]; [|reflexivity]);
    (destruct (requests_get E (length (trace w)) p) as [e|text];
     [destruct (caught e); [|reflexivity]
     | exact (proj1 (populate_keeps kwargs (VStr text) (self, record_call (HttpGet p) w)))]).
  - reflexivity.
  - exact (IH _ (self, failed_once (HttpGet p) e w)).
Qed.

End Frame.

Section Assignments.
Import Py Net Spec Behaviour RealProperty.
Context (E : collaborators).

(** X6: [extractRealPropertyData] assigns the attributes of its own list
    and no other, whatever the arguments, the page and the outcome: an
    attribute outside the list ([lot_width], [lot_depth],
    [legal_description] and [id] among the declared columns) reads after
    the call as it did before, and so does [valuations]. *)
Theorem unlisted_attributes_are_kept (fuel : nat) (kwargs : dict) (s : state)
    (name : string) :
  name ∉ assigned_names ->
  let s' := fst (extractRealPropertyData E fuel kwargs s) in
  attrs (fst s') !! name = attrs (fst s) !! name
  /\ valuations (fst s') = valuations (fst s).
Proof.
  intros Hname s'. subst s'. split.
  - now apply extractRealPropertyData_keeps.
  - apply extractRealPropertyData_propertyid.
Qed.

Lemma bind_ret_l {S A B} (a : A) (f : A -> M S B) : bind (ret a) f = f a.
Proof. reflexivity. Qed.

Lemma index_Some {S A} (l : list A) (i : nat) (x : A) :
  l !! i = Some x -> index (S:=S) l i = ret x.
Proof. unfold index. now intros ->. Qed.

Lemma getitem_Some {S} (d : dict) (key : string) (v : value) :
  d !! key = Some v -> getitem (S:=S) d key = ret v.
Proof. unfold getitem. now intros ->. Qed.

Lemma bind_setattr {B} (n : string) (v : value) (f : unit -> M state B) (s : state) :
  bind (setattr n v) f s = f tt (Build (<[n := v]> (attrs (fst s))) (valuations (fst s)), snd s).
Proof. reflexivity. Qed.

(** Once the rows of the record table are at hand and the call carries an
    identifier, [populate] starts by storing it: a record that holds the
    identifier already goes through the same run. *)
Lemma populate_restart (kwargs : dict) (markup : string) (rows : list Soup.node)
    (p : value) (self : t) (w : world) :
  page_rows (BeautifulSoup E markup) = Some rows ->
  kwargs !! "propertyid" = Some p ->
  populate E kwargs (VStr markup) (self, w)
  = populate E kwargs (VStr markup)
      (Build (<["propertyid" := p]> (attrs self)) (valuations self), w).
Proof.
  unfold page_rows. intros Hrows Hid.
  destruct (Soup.find_all "table" (BeautifulSoup E markup) !! 3%nat) as [table|] eqn:Htable;
    [|discriminate].
  destruct (Soup.child "tbody" table) as [tbody|] eqn:Htbody; [|discriminate].
  unfold populate. cbv zeta.
  rewrite bind_ret_l, (index_Some _ _ _ Htable), bind_ret_l.
  change (Soup.dot (S:=state) "tbody" (Some table)) with (ret (S:=state) (Soup.child "tbody" table)).
  rewrite Htbody, bind_ret_l.
  unfold Soup.dot_find_all. rewrite bind_ret_l, (getitem_Some _ _ _ Hid), bind_ret_l.
  rewrite !bind_setattr. simpl. now rewrite insert_insert_eq.
Qed.

(** X7: the extraction does not roll back.  When the page, supplied or
    fetched, has the record table and the call carries an identifier, the
    identifier is stored before the first row is read, and it stays stored
    whatever happens next: after a failure in a later row the record holds
    the new identifier (and the cells read so far), not the values it had
    before the call. *)
Theorem identifier_is_stored_before_the_rows (fuel : nat) (kwargs : dict)
    (markup : string) (rows : list Soup.node) (p : value) (self : t) (w : world) :
  kwargs !! "propertyid" = Some p ->
  page_rows (BeautifulSoup E markup) = Some rows ->
  kwargs !! "property_html" = Some (VStr markup)
  \/ (kwargs !! "property_html" = None
      /\ requests_get E (length (trace w)) p = inr markup) ->
  attrs (fst (fst (extractRealPropertyData E fuel kwargs (self, w)))) !! "propertyid"
  = Some p.
Proof.
  intros Hid Hrows Hmarkup.
  assert (Hstored : forall w',
             attrs (fst (fst (populate E kwargs (VStr markup) (self, w')))) !! "propertyid"
             = Some p).
  { intros w'. rewrite (populate_restart kwargs markup rows p self w' Hrows Hid).
    destruct (populate_tame E kwargs (VStr markup)
                (Build (<["propertyid" := p]> (attrs self)) (valuations self), w'))
      as [(_ & _ & _ & _ & [Hsame|(p' & Hid' & Hset)]) _].
    - rewrite Hsame. simpl. apply lookup_insert_eq.
    - rewrite Hset. congruence. }
  rewrite extractRealPropertyData_step.
  destruct Hmarkup as [Hhtml|[Hhtml Hfetched]]; rewrite Hhtml; [apply Hstored|].
  rewrite Hid, Hfetched. apply Hstored.
Qed.

End Assignments.

(** ** The row loops *)

Section Rows.
Import Py Net Spec Behaviour.



Lemma for_each_valuation_Return {S} (rows : list dict) :
  forall (s s' : S) vs,
    for_each ValuationHistory.of_row rows s = (s', Return vs) ->
    Forall2 (fun d v => verbatim d (valuation_columns v)) rows vs.
Proof.
  induction rows as [|d rows IH]; intros s s' vs; simpl.
  - intros [= _ <-]. constructor.
  - unfold bind.
    destruct (valuation_of_row_cases d s) as [(v & -> & Hv)|[-> _]]; [|discriminate].
    destruct (for_each ValuationHistory.of_row rows s) as [s1 [vs'|e|]] eqn:Hrest;
      try discriminate.
    simpl. intros [= _ <-]. constructor; [assumption | now apply (IH s s1)].
Qed.




Section Valuations.
Context (E : collaborators).

Lemma store_valuations_cases (rows : list dict) (s : RealProperty.state) :
  (exists vs, RealProperty.store_valuations rows s
              = ((RealProperty.Build (RealProperty.attrs (fst s)) vs, snd s), Return VNone)
              /\ for_each ValuationHistory.of_row rows s = (s, Return vs))
  \/ (exists e, RealProperty.store_valuations rows s = (s, Raise e)
                /\ for_each ValuationHistory.of_row rows s = (s, Raise e)).
Proof.
  unfold RealProperty.store_valuations, bind.
  destruct (for_each_row_step ValuationHistory.of_row rows valuation_row_step s) as [Hs Ho].
  destruct (for_each ValuationHistory.of_row rows s) as [s1 [vs|e|]]; simpl in *; subst.
  - left. now exists vs.
  - right. now exists e.
  - destruct Ho.
Qed.

(** X9: [extractValuationHistory] assigns [valuations] once, after the loop
    over the rows: a call that does not return leaves the object exactly
    as it was, with the valuations it held; a call that returns gives None,
    has replaced [valuations] by a list with one entry per row and has
    assigned nothing else. *)
Theorem valuations_are_replaced_or_kept (fuel : nat) (p : value)
    (self : RealProperty.t) (w : world) :
  let run := RealProperty.extractValuationHistory E fuel p (self, w) in
  match snd run with
  | Return v =>
      v = VNone
      /\ RealProperty.attrs (fst (fst run)) = RealProperty.attrs self
      /\ exists n rows,
           get_valuation_list E n p = inr rows
           /\ Forall2 (fun d v => verbatim d (valuation_columns v)) rows
                      (RealProperty.valuations (fst (fst run)))
  | _ => fst (fst run) = self
  end.
Proof.
  revert w. induction fuel as [|fuel IH]; intros w; cbv zeta;
    rewrite extractValuationHistory_step;
    (destruct (get_valuation_list E (length (trace w)) p) as [e|rows] eqn:Hanswer;
     [destruct (caught e); [|reflexivity]|]);
    try reflexivity; try apply IH;
    (destruct (store_valuations_cases rows (self, record_call (GetValuationList p) w))
       as [(vs & -> & Hvs)|(e & -> & _)]; [|reflexivity]);
    (simpl; split; [reflexivity|]; split; [reflexivity|]);
    exists (length (trace w)), rows; (split; [assumption|]);
    now apply (for_each_valuation_Return rows _ _ vs Hvs).
Qed.


End Valuations.

End Rows.

(** ** Greedy groups *)

Section Greedy.
Import Text Re.
Context {R : Type}.

Lemma star_None (p : ascii -> bool) (u : string) :
  all p u = true ->
  forall rest (k : string -> string -> option R),
    star p (u +:+ rest) k = None -> k u rest = None.
Proof.
  intros Hu rest k Hnone. destruct (k u rest) as [x|] eqn:Hk; [|reflexivity].
  destruct (star_complete p u Hu rest k) as [y Hy]; [rewrite Hk; eauto|]. congruence.
Qed.

(** The run a greedy star settles on is the longest after which the rest of
    the pattern succeeds. *)
Lemma star_longest (p : ascii -> bool) (s : string) :
  forall (k : string -> string -> option R) x,
    star p s k = Some x ->
    exists u rest,
      s = u +:+ rest /\ all p u = true /\ k u rest = Some x
      /\ forall u' rest',
          s = u' +:+ rest' -> all p u' = true ->
          (String.length u < String.length u')%nat -> k u' rest' = None.
Proof.
  induction s as [|c s IH]; intros k x; simpl.
  - intros Hk. exists "", "". repeat split; auto.
    intros u' rest' Hs _ Hlen. destruct u'; [simpl in Hlen; lia | discriminate].
  - destruct (p c) eqn:Hc.
    + destruct (star p s (fun u rest => k (String c u) rest)) as [y|] eqn:Hstar.
      * intros [= ->]. apply IH in Hstar as (u & rest & -> & Hu & Hk & Hmax).
        exists (String c u), rest. simpl. rewrite Hc, Hu. repeat split; auto.
        intros u' rest' Hs Hu' Hlen. destruct u' as [|c' u']; [simpl in Hlen; lia|].
        rewrite sapp_cons in Hs. injection Hs as <- Hs. simpl in Hu'.
        apply andb_prop in Hu' as [_ Hu']. apply (Hmax u' rest' Hs Hu'). simpl in Hlen. lia.
      * intros Hk. exists "", (String c s). repeat split; auto.
        intros u' rest' Hs Hu' Hlen. destruct u' as [|c' u']; [simpl in Hlen; lia|].
        rewrite sapp_cons in Hs. injection Hs as <- ->. simpl in Hu'.
        apply andb_prop in Hu' as [_ Hu'].
        apply (star_None p u' Hu' rest' _ Hstar).
    + intros Hk. exists "", (String c s). repeat split; auto.
      intros u' rest' Hs Hu' Hlen. destruct u' as [|c' u']; [simpl in Hlen; lia|].
      rewrite sapp_cons in Hs. injection Hs as <- _. simpl in Hu'.
      apply andb_prop in Hu' as [Hc' _]. congruence.
Qed.

End Greedy.

Section UnitGroups.
Import Text Re Spec RealProperty.

(** A match of a unit pattern: its group is the longest start of the
    text, on one line, that the unit follows. *)
Lemma unit_match (l text : string) (m : found) :
  match_ (Cat (Grp (Star is_dot)) (Lit l)) text = Some m ->
  exists g v,
    text = g +:+ l +:+ v /\ all is_dot g = true /\ groups m = [g]
    /\ forall g' v',
        text = g' +:+ l +:+ v' -> all is_dot g' = true ->
        (String.length g' <= String.length g)%nat.
Proof.
  unfold match_. simpl. intros Hm.
  apply star_longest in Hm as (g & rest & -> & Hg & Hk & Hmax).
  destruct (strip_prefix l rest) as [v|] eqn:Hl; [|discriminate].
  apply strip_prefix_Some in Hl as ->. injection Hk as <-.
  exists g, v. repeat split; auto.
  intros g' v' Htext Hg'.
  destruct (Nat.le_gt_cases (String.length g') (String.length g)) as [|Hlt]; [assumption|].
  specialize (Hmax g' (l +:+ v') Htext Hg' Hlt). simpl in Hmax.
  now rewrite strip_prefix_app in Hmax.
Qed.

End UnitGroups.

Section LandSize.
Import Py Net Spec Behaviour RealProperty.
Context (E : collaborators).

(** X11: the two units are not treated alike.  When " Square Feet"
    follows anything on the first line of the text, [land_size] becomes
    what [get_float] makes of the text before its last occurrence: None
    when that is no number, and never an error, whatever else the text
    holds (" Acres" included).  Only without " Square Feet" is " Acres"
    looked for; then text that [get_float] cannot convert makes the
    statement raise [TypeError] and assign nothing, where a number becomes
    that number times 43560. *)
Theorem the_unit_decides_the_leniency (text : string) (s : state) :
  (has_unit " Square Feet" text ->
   exists g,
     before_last " Square Feet" text g
     /\ land_size_of E text s
        = ((with_land_size (of_float (get_float E g)) (fst s), snd s), Return tt))
  /\ (~ has_unit " Square Feet" text -> has_unit " Acres" text ->
      exists g,
        before_last " Acres" text g
        /\ land_size_of E text s
           = match get_float E g with
             | Some x =>
                 ((with_land_size (VFloat (PrimFloat.mul x (PrimFloat.of_uint63 43560)))
                     (fst s), snd s), Return tt)
             | None => (s, Raise TypeError)
             end).
Proof.
  split.
  - intros Hsq. apply unit_found in Hsq as [m Hm].
    destruct (unit_match _ _ _ Hm) as (g & v & Htext & Hg & Hgroups & Hmax).
    exists g. split; [split; [now exists v | now split]|].
    unfold land_size_of, square_feet_re. rewrite Hm.
    unfold bind, group_1, Re.group. now rewrite Hgroups.
  - intros Hsq Hac. apply unit_found in Hac as [m Hm].
    destruct (unit_match _ _ _ Hm) as (g & v & Htext & Hg & Hgroups & Hmax).
    exists g. split; [split; [now exists v | now split]|].
    unfold land_size_of, square_feet_re, acres_re.
    rewrite (unit_not_found _ _ Hsq), Hm.
    unfold bind, group_1, Re.group. rewrite Hgroups. simpl.
    now destruct (get_float E g).
Qed.

End LandSize.

Section BlockLotGroups.
Import Text Re Spec RealProperty.

Lemma exec_plus_cons {R} (p : ascii -> bool) (c : ascii) (s : string) (k : cont (R:=R)) :
  exec (Plus p) (String c s) k
  = if p c then star p s (fun u rest => k (String c u) [] rest) else None.
Proof. reflexivity. Qed.

Lemma exec_lit_prefix {R} (l s : string) (k : cont (R:=R)) :
  exec (Lit l) s k
  = match strip_prefix l s with Some rest => k l [] rest | None => None end.
Proof. reflexivity. Qed.

Lemma block_lot_tail_matches (block lot : string) :
  alnum block -> alnum lot ->
  matches (Cat (Lit " Block ")
             (Cat (Grp (Plus is_alnum)) (Cat (Lit " Lot ") (Grp (Plus is_alnum)))))
          (" Block " +:+ block +:+ " Lot " +:+ lot) ([] ++ [block] ++ [] ++ [lot]).
Proof.
  intros [Hb Hb'] [Hl Hl'].
  apply m_cat; [apply m_lit|].
  apply m_cat; [apply m_grp; now apply all_plus|].
  apply m_cat; [apply m_lit|].
  apply m_grp. now apply all_plus.
Qed.

(** The match of the subdivision pattern at the start of a text: the name
    is the longest start that a block and a lot follow, and the lot is a
    whole run of letters and digits. *)
Lemma match_block_lot_longest (text : string) (m : found) :
  match_ block_lot_re text = Some m ->
  exists name block lot,
    groups m = [name; block; lot]
    /\ text = name +:+ " Block " +:+ block +:+ " Lot " +:+ lot +:+ rest m
    /\ (forall name' block' lot' post',
          text = name' +:+ " Block " +:+ block' +:+ " Lot " +:+ lot' +:+ post' ->
          all is_dot name' = true -> alnum block' -> alnum lot' ->
          (String.length name' <= String.length name)%nat)
    /\ (forall c post, rest m = String c post -> is_alnum c = false).
Proof.
  unfold match_, block_lot_re. rewrite exec_cat, exec_grp.
  destruct text as [|c text]; [discriminate|].
  rewrite exec_plus_cons. destruct (is_dot c) eqn:Hc; [|discriminate].
  intros Hm. apply star_longest in Hm as (u & tail & -> & Hu & Hk & Hmax).
  cbv beta in Hk.
  rewrite exec_cat, exec_lit_prefix in Hk.
  destruct (strip_prefix " Block " tail) as [r1|] eqn:H1; [|discriminate].
  apply strip_prefix_Some in H1 as ->.
  rewrite exec_cat, exec_grp in Hk.
  destruct r1 as [|c1 s1]; [discriminate|].
  rewrite exec_plus_cons in Hk. destruct (is_alnum c1) eqn:Hc1; [|discriminate].
  apply star_sound in Hk as (u1 & r2 & -> & Hu1 & Hk). cbv beta in Hk.
  rewrite exec_cat, exec_lit_prefix in Hk.
  destruct (strip_prefix " Lot " r2) as [r3|] eqn:H3; [|discriminate].
  apply strip_prefix_Some in H3 as ->.
  rewrite exec_grp in Hk.
  destruct r3 as [|c3 s3]; [discriminate|].
  rewrite exec_plus_cons in Hk. destruct (is_alnum c3) eqn:Hc3; [|discriminate].
  apply star_longest in Hk as (u3 & r4 & -> & Hu3 & Hk & Hlot).
  injection Hk as <-. simpl groups. simpl rest.
  exists (String c u), (String c1 u1), (String c3 u3). split; [reflexivity|].
  split; [now rewrite !sapp_cons|]. split.
  - intros name' block' lot' post' Htext Hname' Hblock' Hlot'.
    destruct (Nat.le_gt_cases (String.length name') (String.length (String c u)))
      as [|Hlt]; [assumption|]. exfalso.
    destruct name' as [|c' u']; [simpl in Hlt; lia|].
    rewrite sapp_cons in Htext. injection Htext as <- Htext.
    simpl in Hname'. apply andb_prop in Hname' as [_ Hu'].
    assert (Hlen : (String.length u < String.length u')%nat) by (simpl in Hlt; lia).
    specialize (Hmax u' _ Htext Hu' Hlen). cbv beta in Hmax.
    pose proof (block_lot_tail_matches block' lot' Hblock' Hlot') as Htail.
    eapply exec_complete in Htail as [x Hx].
    + rewrite sapp_assoc, sapp_assoc, sapp_assoc in Hx. rewrite Hmax in Hx. discriminate.
    + cbv beta. eauto.
  - intros c4 post -> .
    destruct (is_alnum c4) eqn:Hc4; [|reflexivity]. exfalso.
    assert (Hnone := Hlot (u3 +:+ String c4 "") post).
    rewrite sapp_assoc in Hnone. simpl in Hnone.
    discriminate Hnone; [reflexivity | | rewrite slength_app; simpl; lia].
    rewrite all_app, Hu3. simpl. now rewrite Hc4.
Qed.

End BlockLotGroups.

Section Subdivision.
Import Py Net Spec Behaviour RealProperty.

(** X12: which part of the cell becomes the subdivision.  The text of
    the link is collapsed first, so it is on one line; when it holds
    " Block <alnum> Lot <alnum>" at all, the name starts at the first
    character of the text and reaches to the last place where a block and a
    lot follow: text in front of the name and earlier blocks and lots are
    part of the name, the lot is the whole run of letters and digits, and
    what follows the lot is dropped. *)
Theorem the_last_block_and_lot_are_taken (cell : string) (s : state) :
  block_lot_shaped (Text.collapse cell) ->
  exists name block lot post,
    Text.collapse cell = name +:+ " Block " +:+ block +:+ " Lot " +:+ lot +:+ post
    /\ subdivision_block_lot (Text.collapse cell) s
       = ((with_block_lot name block lot (fst s), snd s), Return tt)
    /\ (forall name' block' lot' post',
          Text.collapse cell
          = name' +:+ " Block " +:+ block' +:+ " Lot " +:+ lot' +:+ post' ->
          alnum block' -> alnum lot' ->
          (String.length name' <= String.length name)%nat)
    /\ (forall c post', post = String c post' -> Text.is_alnum c = false).
Proof.
  pose proof (collapse_on_one_line cell) as Hline.
  generalize dependent (Text.collapse cell). intros text Hline Hshaped.
  destruct Hshaped as (pre & name0 & b0 & l0 & post0 & Htext & Hname0 & _ & Hb0 & Hl0).
  assert (Hstart : is_Some (Re.match_ block_lot_re text)).
  { assert (Hpre : Text.all Text.is_dot (pre +:+ name0) = true).
    { rewrite Htext, <- sapp_assoc, all_app in Hline. now apply andb_prop in Hline. }
    assert (Hne : pre +:+ name0 <> "").
    { destruct pre; [now rewrite sapp_nil_l | now rewrite sapp_cons]. }
    pose proof (matches_block_lot (pre +:+ name0) b0 l0 Hne Hpre Hb0 Hl0) as Hm.
    apply (match_complete _ _ _ post0) in Hm.
    rewrite !sapp_assoc in Hm. now rewrite Htext. }
  destruct Hstart as [m Hm].
  destruct (match_block_lot_longest text m Hm)
    as (name & block & lot & Hgroups & Hparts & Hlongest & Hlot).
  exists name, block, lot, (Re.rest m). split; [exact Hparts|]. split.
  - pose proof (findall_at_start _ _ _ Hm) as Hhead. rewrite Hgroups in Hhead.
    destruct (Re.findall block_lot_re text) as [|first others] eqn:Hall; [discriminate|].
    injection Hhead as ->. now apply (subdivision_block_lot_first _ _ _ _ others).
  - split; [|exact Hlot].
    intros name' block' lot' post' Htext' Hblock' Hlot'.
    apply (Hlongest name' block' lot' post' Htext'); [|assumption|assumption].
    rewrite Htext', all_app in Hline. now apply andb_prop in Hline.
Qed.

End Subdivision.

(** ** [extractBuildings] *)

Section BuildingFacts.
Import Py Net Spec Behaviour Buildings.
Context (get_building_list : nat -> value -> exn + list dict).

Lemma building_of_row_raises {S} (d : dict) (s : S) :
  of_row d s = (s, Raise AttributeError).
Proof. reflexivity. Qed.

Lemma store_buildings_cases (rows : list dict) (s : state) :
  store_buildings rows s
  = match rows with
    | [] => (State (self s) [] (outside s) (building_calls s), Return VNone)
    | _ :: _ => (s, Raise AttributeError)
    end.
Proof. destruct rows; reflexivity. Qed.

Lemma extractBuildings_step (fuel : nat) (p : value) (s : state) :
  extractBuildings get_building_list fuel p s
  = let called := State (self s) (buildings s) (outside s) (building_calls s ++ [p]) in
    match get_building_list (calls s) p with
    | inr rows => store_buildings rows called
    | inl e =>
        if caught e then
          let waited :=
            State (self s) (buildings s)
                  (World (trace (outside s)) (stdout (outside s) ++ [ExceptionCaught e])
                         (slept (outside s) ++ [10%Z]))
                  (building_calls s ++ [p]) in
          match fuel with
          | O => (waited, OutOfFuel)
          | S fuel' => extractBuildings get_building_list fuel' p waited
          end
        else (called, Raise e)
    end.
Proof.
  destruct fuel; simpl; unfold bind, attempt, get_building_list_call; simpl;
    (destruct (get_building_list (calls s) p) as [e|rows]; simpl;
     [destruct (caught e)|]; reflexivity).
Qed.

Lemma extractBuildings_Return (fuel : nat) (p : value) :
  forall s v,
    snd (extractBuildings get_building_list fuel p s) = Return v ->
    v = VNone /\ buildings (fst (extractBuildings get_building_list fuel p s)) = [].
Proof.
  induction fuel as [|fuel IH]; intros s v; rewrite extractBuildings_step; cbv zeta;
    (destruct (get_building_list (calls s) p) as [e|rows];
     [destruct (caught e); [|discriminate]
     | rewrite store_buildings_cases; destruct rows; [|discriminate];
       simpl; intros [= <-]; auto]).
  - discriminate.
  - apply IH.
Qed.

(** X13: [extractBuildings] works only for a property without buildings.
    Each row of the answer starts an entry with [rp_tables.Building()], and
    [rp_tables.py] binds no such name: when the answer has a row the method
    raises [AttributeError] after its one call, is not retried, and leaves
    [buildings] as it was; on an empty answer it assigns the empty list and
    returns None.  So whatever the collaborator answers, a call that returns
    has left [buildings] empty. *)
Theorem extractBuildings_stores_no_building (fuel : nat) (p : value) (s : state) :
  (forall rows,
      get_building_list (calls s) p = inr rows ->
      extractBuildings get_building_list fuel p s
      = match rows with
        | [] => (State (self s) [] (outside s) (building_calls s ++ [p]), Return VNone)
        | _ :: _ =>
            (State (self s) (buildings s) (outside s) (building_calls s ++ [p]),
             Raise AttributeError)
        end)
  /\ (forall v,
        snd (extractBuildings get_building_list fuel p s) = Return v ->
        v = VNone /\ buildings (fst (extractBuildings get_building_list fuel p s)) = []).
Proof.
  split.
  - intros rows Hanswer. rewrite extractBuildings_step, Hanswer. cbv zeta.
    rewrite store_buildings_cases. now destruct rows.
  - apply extractBuildings_Return.
Qed.

End BuildingFacts.

(** ** Extraction into a record that was used before *)

Section Overwriting.
Import Py Net Spec Behaviour RealProperty.
Context (E : collaborators) (old : RealProperty.t).

Lemma alike_bind {A B} (m : M state A) (f : A -> M state B) :
  alike old m -> (forall a, alike old (f a)) -> alike old (bind m f).
Proof.
  intros Hm Hf s0 s Hs. unfold bind. destruct (Hm s0 s Hs) as [Ho Hs'].
  destruct (m s0) as [s0' o0], (m s) as [s' o]. simpl in Ho, Hs'. subst o.
  destruct o0 as [a|e|]; [now apply Hf | auto | auto].
Qed.

Lemma alike_ret {A} (a : A) : alike old (ret a).
Proof. intros s0 s Hs. auto. Qed.

Lemma alike_raise {A} (e : exn) : alike old (raise (A:=A) e).
Proof. intros s0 s Hs. auto. Qed.

Ltac stateless :=
  repeat match goal with
         | |- alike _ (match ?x with _ => _ end) => destruct x
         end;
  first [apply alike_ret | apply alike_raise].

Lemma alike_index {A} (l : list A) (i : nat) : alike old (index l i).
Proof. unfold index. stateless. Qed.

Lemma alike_getitem (d : dict) (key : string) : alike old (getitem d key).
Proof. unfold getitem. stateless. Qed.

Lemma alike_dot (name : string) (x : option Soup.node) : alike old (Soup.dot name x).
Proof. unfold Soup.dot. stateless. Qed.

Lemma alike_dot_find_all (name : string) (x : option Soup.node) :
  alike old (Soup.dot_find_all name x).
Proof. unfold Soup.dot_find_all. stateless. Qed.

Lemma alike_dot_string (x : option Soup.node) : alike old (Soup.dot_string x).
Proof. unfold Soup.dot_string. stateless. Qed.

Lemma alike_dot_strip (t : option string) : alike old (Soup.dot_strip t).
Proof. unfold Soup.dot_strip. stateless. Qed.

Lemma alike_dot_collapse (t : option string) : alike old (Soup.dot_collapse t).
Proof. unfold Soup.dot_collapse. stateless. Qed.

Lemma alike_subscript (key : string) (x : option Soup.node) :
  alike old (Soup.subscript key x).
Proof. unfold Soup.subscript. stateless. Qed.

Lemma alike_group_1 (m : Re.found) : alike old (group_1 m).
Proof. unfold group_1. stateless. Qed.

Lemma alike_times_43560 (x : option float) : alike old (times_43560 x).
Proof. unfold times_43560. stateless. Qed.

Lemma alike_follow (path : list string) : forall x, alike old (follow path x).
Proof.
  induction path as [|name path IH]; intros x; simpl; [apply alike_ret|].
  apply alike_bind; [apply alike_dot | exact IH].
Qed.

Lemma alike_stripped (cur_tds : list Soup.node) (i : nat) (path : list string) :
  alike old (stripped cur_tds i path).
Proof.
  unfold stripped.
  apply alike_bind; [apply alike_index | intros td].
  apply alike_bind; [apply alike_follow | intros x].
  apply alike_bind; [apply alike_dot_string | intros text].
  apply alike_dot_strip.
Qed.

Lemma alike_collapsed (cur_tds : list Soup.node) (i : nat) (path : list string) :
  alike old (collapsed cur_tds i path).
Proof.
  unfold collapsed.
  apply alike_bind; [apply alike_index | intros td].
  apply alike_bind; [apply alike_follow | intros x].
  apply alike_bind; [apply alike_dot_string | intros text].
  apply alike_dot_collapse.
Qed.

Lemma alike_cells (rows : list Soup.node) (i : nat) : alike old (cells rows i).
Proof. unfold cells. apply alike_bind; [apply alike_index | intros tr; apply alike_ret]. Qed.

Lemma alike_setattr (name : string) (v : value) : alike old (setattr name v).
Proof.
  intros s0 s Hs. split; [reflexivity|].
  unfold on_top_of in *. simpl. now rewrite Hs, insert_union_l.
Qed.

Lemma alike_land_size_of (land_size_str : string) : alike old (land_size_of E land_size_str).
Proof.
  unfold land_size_of.
  destruct (Re.match_ square_feet_re land_size_str) as [m|].
  - apply alike_bind; [apply alike_group_1 | intros g; apply alike_setattr].
  - destruct (Re.match_ acres_re land_size_str) as [m|]; [|apply alike_ret].
    apply alike_bind; [apply alike_group_1 | intros g].
    apply alike_bind; [apply alike_times_43560 | intros v; apply alike_setattr].
Qed.

Lemma alike_subdivision_block_lot (subdivision_str : string) :
  alike old (subdivision_block_lot subdivision_str).
Proof.
  unfold subdivision_block_lot.
  apply alike_bind; [apply alike_index | intros first].
  destruct first as [|subdivision [|block [|lot [|]]]]; try apply alike_raise.
  apply alike_bind; [apply alike_setattr | intros _].
  apply alike_bind; [apply alike_setattr | intros _].
  apply alike_setattr.
Qed.

(** The one statement that reads the record: [print(self.land_size)]. *)
Lemma alike_print_attribute {B} (name : string) (k : M state B) :
  alike old k ->
  alike old (let! self := get in
             in_world (print (Printed (getattr name (fst self)))) ;; k).
Proof. intros Hk s0 s Hs. apply Hk. exact Hs. Qed.

Ltac alike_prim :=
  first [ apply alike_index | apply alike_getitem | apply alike_cells
        | apply alike_stripped | apply alike_collapsed | apply alike_dot
        | apply alike_dot_find_all | apply alike_dot_string | apply alike_dot_strip
        | apply alike_subscript | apply alike_setattr | apply alike_land_size_of
        | apply alike_subdivision_block_lot ].

Ltac alike_step :=
  lazymatch goal with
  | |- alike _ (bind get _) => apply alike_print_attribute
  | |- alike _ (bind _ _) => apply alike_bind; [alike_prim | intros ?]
  end.

Lemma populate_alike (kwargs : dict) (html : value) : alike old (populate E kwargs html).
Proof.
  unfold populate. cbv zeta.
  apply alike_bind; [destruct html; first [apply alike_ret | apply alike_raise] | intros markup].
  repeat alike_step. apply alike_ret.
Qed.

End Overwriting.

Section UsedRecords.
Import Py Net Spec Behaviour RealProperty.
Context (E : collaborators).

Lemma extractRealPropertyData_alike (old : RealProperty.t) (fuel : nat) :
  forall kwargs self0 self w,
    on_top_of old (self0, w) (self, w) ->
    snd (extractRealPropertyData E fuel kwargs (self0, w))
    = snd (extractRealPropertyData E fuel kwargs (self, w))
    /\ on_top_of old (fst (extractRealPropertyData E fuel kwargs (self0, w)))
                     (fst (extractRealPropertyData E fuel kwargs (self, w))).
Proof.
  induction fuel as [|fuel IH]; intros kwargs self0 self w Hs;
    rewrite !extractRealPropertyData_step;
    (destruct (kwargs !! "property_html") as [html|]; [now apply populate_alike|]);
    (destruct (kwargs !! "propertyid") as [p|]; [|now split]);
    (destruct (requests_get E (length (trace w)) p) as [e|text];
     [destruct (caught e); [|now split] | now apply populate_alike]).
  - now split.
  - now apply IH.
Qed.


End UsedRecords.

(** ** What a run that returns has assigned *)

Section Assigned.
Import Py Net Spec Behaviour RealProperty.
Context (E : collaborators).

Lemma grows_bind {A B} (n1 n2 n3 : list string) (m : M state A) (f : A -> M state B) :
  grows n1 n2 m -> (forall a, grows n2 n3 (f a)) -> grows n1 n3 (bind m f).
Proof.
  intros Hm Hf s Hs. unfold bind. specialize (Hm s Hs).
  destruct (m s) as [s' [a|e|]]; simpl in *; auto. now apply Hf.
Qed.

(** A step that leaves the state alone. *)
Lemma grows_tame {A} (names : list string) (Q : A -> Prop) (m : M state A) :
  tame eq Q m -> grows names names m.
Proof.
  intros Hm s Hs. destruct (Hm s) as [Heq _]. rewrite <- Heq.
  now destruct (snd (m s)).
Qed.

Lemma holds_setattr (names : list string) (name : string) (v : value) (s : state) :
  holds names s -> holds (name :: names) (fst (setattr name v s)).
Proof.
  intros Hs. constructor; simpl.
  - rewrite lookup_insert_eq. eauto.
  - eapply Forall_impl; [exact Hs|]. intros n Hn. simpl in *.
    destruct (decide (name = n)) as [->|Hne];
      [rewrite lookup_insert_eq; eauto | now rewrite lookup_insert_ne].
Qed.

Lemma holds_tail (name : string) (names : list string) (s : state) :
  holds (name :: names) s -> holds names s.
Proof. intros H. now inversion H. Qed.

Lemma grows_setattr (names : list string) (name : string) (v : value) :
  grows names (name :: names) (setattr name v).
Proof. intros s Hs. now apply holds_setattr. Qed.

Lemma grows_print (names : list string) (v : value) :
  grows names names (in_world (X:=RealProperty.t) (print (Printed v))).
Proof. intros s Hs. exact Hs. Qed.

Lemma grows_land_size_of (names : list string) (land_size_str : string) :
  grows names names (land_size_of E land_size_str).
Proof.
  intros s Hs. unfold land_size_of.
  destruct (Re.match_ square_feet_re land_size_str) as [m|].
  - unfold bind, group_1. destruct (Re.group m 1); simpl; [|exact Logic.I].
    now apply (holds_tail "land_size"), holds_setattr.
  - destruct (Re.match_ acres_re land_size_str) as [m|]; [|exact Hs].
    unfold bind, group_1. destruct (Re.group m 1) as [g|]; simpl; [|exact Logic.I].
    destruct (get_float E g); simpl; [|exact Logic.I].
    now apply (holds_tail "land_size"), holds_setattr.
Qed.

Lemma grows_subdivision_block_lot (names : list string) (subdivision_str : string) :
  grows names ("lot" :: "block" :: "subdivision" :: names)
        (subdivision_block_lot subdivision_str).
Proof.
  unfold subdivision_block_lot.
  eapply grows_bind; [apply (grows_tame _ _ _ (tame_index eq _ _)) | intros first].
  destruct first as [|subdivision [|block [|lot [|]]]]; try (now intros ? _).
  eapply grows_bind; [apply grows_setattr | intros _].
  eapply grows_bind; [apply grows_setattr | intros _].
  apply grows_setattr.
Qed.

Ltac grows_prim :=
  first [ apply grows_setattr
        | apply grows_print
        | apply grows_land_size_of
        | apply grows_subdivision_block_lot
        | eapply grows_tame;
          first [ apply (tame_index eq) | apply (tame_getitem eq) | apply (tame_cells eq)
                | apply (tame_stripped eq) | apply (tame_collapsed eq)
                | apply (tame_dot eq) | apply (tame_dot_find_all eq)
                | apply (tame_dot_string eq) | apply (tame_dot_strip eq)
                | apply (tame_subscript eq) | apply (tame_get eq) ] ].

Ltac grows_step :=
  lazymatch goal with
  | |- grows _ _ (bind _ _) => eapply grows_bind; [grows_prim | intros ?]
  end.

Lemma populate_grows (kwargs : dict) (html : value) :
  grows [] (rev assigned_on_success) (populate E kwargs html).
Proof.
  unfold populate. cbv zeta.
  destruct html as [|z|f|markup|d]; try (now intros ? _).
  eapply grows_bind;
    [apply (grows_tame _ (fun _ => True)); now apply (tame_ret eq) | intros ?].
  repeat grows_step.
  intros s Hs. exact Hs.
Qed.

Lemma populate_holds (kwargs : dict) (html : value) (s : state) :
  match snd (populate E kwargs html s) with
  | Return _ => holds assigned_on_success (fst (populate E kwargs html s))
  | _ => True
  end.
Proof.
  pose proof (populate_grows kwargs html s (List.Forall_nil _)) as H.
  destruct (snd (populate E kwargs html s)); auto.
  unfold holds in *. apply List.Forall_rev in H. now rewrite List.rev_involutive in H.
Qed.

Lemma extractRealPropertyData_holds (fuel : nat) :
  forall kwargs self w,
    is_Some (kwargs !! "property_html") \/ is_Some (kwargs !! "propertyid") ->
    match snd (extractRealPropertyData E fuel kwargs (self, w)) with
    | Return _ =>
        holds assigned_on_success (fst (extractRealPropertyData E fuel kwargs (self, w)))
    | _ => True
    end.
Proof.
  induction fuel as [|fuel IH]; intros kwargs self w Hargs;
    rewrite extractRealPropertyData_step;
    (destruct (kwargs !! "property_html") as [html|]; [apply populate_holds|]);
    (destruct (kwargs !! "propertyid") as [p|];
     [|destruct Hargs as [[? Hnone]|[? Hnone]]; discriminate Hnone]);
    (destruct (requests_get E (length (trace w)) p) as [e|text];
     [destruct (caught e); [|exact Logic.I] | apply populate_holds]).
  - exact Logic.I.
  - apply IH. right. rewrite lookup_singleton_eq. eauto.
Qed.

(** X15: a run of [extractRealPropertyData] that was given an argument
    and returns has assigned every attribute of its list but [land_size]:
    the identifier and the twenty attributes read from the cells.  On a
    record that was used before, each of them then holds what the same call
    leaves on a new record: after a run that returns, an old value is left
    under [land_size] at most, and under the names the method never
    assigns. *)
Theorem a_run_that_returns_has_assigned_the_fields (fuel : nat) (kwargs : dict)
    (self : RealProperty.t) (w : world) (v : value) :
  is_Some (kwargs !! "property_html") \/ is_Some (kwargs !! "propertyid") ->
  let run := extractRealPropertyData E fuel kwargs (self, w) in
  let anew := extractRealPropertyData E fuel kwargs (fresh, w) in
  snd run = Return v ->
  holds assigned_on_success (fst run)
  /\ forall name,
      name ∈ assigned_on_success ->
      attrs (fst (fst run)) !! name = attrs (fst (fst anew)) !! name.
Proof.
  intros Hargs run anew Hreturn. split.
  - pose proof (extractRealPropertyData_holds fuel kwargs self w Hargs) as H.
    fold run in H. now rewrite Hreturn in H.
  - destruct (extractRealPropertyData_alike E self fuel kwargs fresh self w) as [Ho Hs].
    { unfold on_top_of. simpl. now rewrite (left_id ∅ (∪)). }
    fold run anew in Ho, Hs.
    pose proof (extractRealPropertyData_holds fuel kwargs fresh w Hargs) as Hnew.
    fold anew in Hnew. rewrite Ho, Hreturn in Hnew.
    intros name Hname. unfold holds in Hnew.
    destruct (proj1 (Forall_forall _ _) Hnew name Hname) as [x Hx].
    unfold on_top_of in Hs. rewrite Hs, Hx. now apply lookup_union_Some_l.
Qed.

End Assigned.

(** ** Collapsed text *)

Section Words.
Import Text Behaviour.















End Words.

(** ** Concrete runs of the further properties *)

Section MoreInstances.
Import Py Net Spec Behaviour RealProperty.

Lemma one_failure {A} (n0 : nat) :
  n0 = 0%nat -> transient_run (failing (A:=A)) n0 [ConnectionError].
Proof.
  intros -> i e Hi. destruct i as [|i]; simpl in Hi; [|discriminate].
  injection Hi as <-. split; reflexivity.
Defined.


(** A site that refuses one connection and then times out while the page
    is read: the time-out reaches the caller after one retry. *)
Lemma uncaught_error_witness :
  (length [ConnectionError] <= 1)
  /\ caught (OtherError "ReadTimeout") = false
  /\ extractRealPropertyData unreachable 1 {[ "propertyid" := VInt 1 ]} (fresh, quiet)
     = ((fresh, after_retries (HttpGet (VInt 1)) [ConnectionError] quiet),
        Raise (OtherError "ReadTimeout"))
  /\ DeedTransaction.extract unreachable 1 (VInt 1) quiet
     = (after_retries (GetTransactionList (VInt 1)) [ConnectionError] quiet,
        Raise (OtherError "ReadTimeout")).
Proof.
  assert (Hfuel : length [ConnectionError] <= 1) by (simpl; lia).
  assert (Hcaught : caught (OtherError "ReadTimeout") = false) by reflexivity.
  destruct (uncaught_error_ends_the_retries unreachable (VInt 1) [ConnectionError]
              (OtherError "ReadTimeout") 1 quiet Hfuel Hcaught)
    as (Hpage & _ & _ & Hdeed & _).
  split; [exact Hfuel|]. split; [exact Hcaught|]. split.
  - apply Hpage; [reflexivity | reflexivity | now apply one_failure | reflexivity].
  - apply Hdeed; [now apply one_failure | reflexivity].
Defined.


(** Markup and identifier together: the sample network is not asked. *)
Lemma markup_is_not_fetched_witness :
  ({[ "property_html" := VStr "square feet"; "propertyid" := VInt 2 ]} : dict)
    !! "property_html" = Some (VStr "square feet")
  /\ trace (snd (fst (extractRealPropertyData Sample.world_ 0
                       {[ "property_html" := VStr "square feet"; "propertyid" := VInt 2 ]}
                       (fresh, quiet)))) = [].
Proof.
  assert (Hhtml : ({[ "property_html" := VStr "square feet"; "propertyid" := VInt 2 ]} : dict)
                    !! "property_html" = Some (VStr "square feet")) by reflexivity.
  split; [exact Hhtml|].
  apply (markup_is_not_fetched Sample.world_ 0 _ _ (fresh, quiet) Hhtml).
Defined.

(** A keyword the method does not know. *)
Lemma other_keywords_witness :
  "verbose" <> "property_html" /\ "verbose" <> "propertyid"
  /\ extractRealPropertyData Sample.world_ 2
       (<["verbose" := VInt 1]> {[ "propertyid" := VInt 1 ]}) (fresh, quiet)
     = extractRealPropertyData Sample.world_ 2 {[ "propertyid" := VInt 1 ]} (fresh, quiet).
Proof.
  assert (H1 : "verbose" <> "property_html") by discriminate.
  assert (H2 : "verbose" <> "propertyid") by discriminate.
  split; [exact H1|]. split; [exact H2|].
  exact (other_keywords_are_ignored Sample.world_ 2 _ "verbose" (VInt 1) (fresh, quiet) H1 H2).
Defined.

(** The legal description is never assigned. *)
Lemma unlisted_attributes_witness :
  ("legal_description" ∉ assigned_names)
  /\ attrs (fst (fst (extractRealPropertyData Sample.world_ 2 {[ "propertyid" := VInt 1 ]}
                       (fresh, quiet)))) !! "legal_description" = None.
Proof.
  assert (Hname : "legal_description" ∉ assigned_names)
    by (apply (bool_decide_unpack _); vm_compute; reflexivity).
  split; [exact Hname|].
  exact (proj1 (unlisted_attributes_are_kept Sample.world_ 2 {[ "propertyid" := VInt 1 ]}
                  (fresh, quiet) "legal_description" Hname)).
Defined.

(** A page whose land size is not a number of acres and whose last row is
    missing: the call fails, the identifier is stored. *)
Lemma identifier_is_stored_witness :
  snd (extractRealPropertyData Sample.world_ 0
         {[ "property_html" := VStr "bad acres"; "propertyid" := VInt 7 ]} (fresh, quiet))
  = Raise TypeError
  /\ attrs (fst (fst (extractRealPropertyData Sample.world_ 0
                       {[ "property_html" := VStr "bad acres"; "propertyid" := VInt 7 ]}
                       (fresh, quiet)))) !! "propertyid" = Some (VInt 7).
Proof.
  split; [vm_compute; reflexivity|].
  apply (identifier_is_stored_before_the_rows Sample.world_ 0 _ "bad acres"
           (firstn 9 (Sample.rows "n/a Acres" "Oak Park Block 7 Lot 1")) (VInt 7) fresh quiet);
    [reflexivity | vm_compute; reflexivity | left; reflexivity].
Defined.



(** A text with both units. *)
Lemma the_unit_decides_witness :
  has_unit " Square Feet" "2 Acres or 87120 Square Feet"
  /\ exists g,
      before_last " Square Feet" "2 Acres or 87120 Square Feet" g
      /\ land_size_of Sample.world_ "2 Acres or 87120 Square Feet" (fresh, quiet)
         = ((with_land_size (of_float (Sample.to_float g)) fresh, quiet), Return tt).
Proof.
  assert (Hunit : has_unit " Square Feet" "2 Acres or 87120 Square Feet")
    by (exists "2 Acres or 87120", ""; split; reflexivity).
  split; [exact Hunit|].
  exact (proj1 (the_unit_decides_the_leniency Sample.world_ _ (fresh, quiet)) Hunit).
Defined.

(** A link text with two blocks and lots. *)
Lemma the_last_block_and_lot_witness :
  block_lot_shaped (Text.collapse "Elm  Heights Block 3A Lot 12 Block 4 Lot 7B-1")
  /\ exists name block lot post,
      Text.collapse "Elm  Heights Block 3A Lot 12 Block 4 Lot 7B-1"
      = name +:+ " Block " +:+ block +:+ " Lot " +:+ lot +:+ post
      /\ subdivision_block_lot (Text.collapse "Elm  Heights Block 3A Lot 12 Block 4 Lot 7B-1")
           (fresh, quiet)
         = ((with_block_lot name block lot fresh, quiet), Return tt).
Proof.
  assert (Hshaped :
            block_lot_shaped (Text.collapse "Elm  Heights Block 3A Lot 12 Block 4 Lot 7B-1")).
  { exists "", "Elm Heights", "3A", "12", " Block 4 Lot 7B-1".
    split; [vm_compute; reflexivity|]. split; [discriminate|]. split; [reflexivity|].
    split; (split; [discriminate | reflexivity]). }
  split; [exact Hshaped|].
  destruct (the_last_block_and_lot_are_taken _ (fresh, quiet) Hshaped)
    as (name & block & lot & post & Htext & Hrun & _).
  exists name, block, lot, post. split; [exact Htext | exact Hrun].
Defined.

(** A property with one building. *)
Lemma extractBuildings_witness :
  Buildings.extractBuildings (fun _ _ => inr [building_row]) 0 (VInt 1)
    (Buildings.State fresh [] quiet [])
  = (Buildings.State fresh [] quiet [VInt 1], Raise AttributeError).
Proof.
  exact (proj1 (extractBuildings_stores_no_building (fun _ _ => inr [building_row]) 0 (VInt 1)
                  (Buildings.State fresh [] quiet []))
           [building_row] eq_refl).
Defined.

(** The sample page parsed from markup: everything but the land size is
    assigned whatever the page holds. *)
Lemma assigned_fields_witness :
  (is_Some (({[ "property_html" := VStr "square feet"; "propertyid" := VInt 2 ]} : dict)
              !! "property_html")
   \/ is_Some (({[ "property_html" := VStr "square feet"; "propertyid" := VInt 2 ]} : dict)
                 !! "propertyid"))
  /\ snd (extractRealPropertyData Sample.world_ 0
            {[ "property_html" := VStr "square feet"; "propertyid" := VInt 2 ]} (fresh, quiet))
     = Return VNone
  /\ holds assigned_on_success
       (fst (extractRealPropertyData Sample.world_ 0
               {[ "property_html" := VStr "square feet"; "propertyid" := VInt 2 ]}
               (fresh, quiet))).
Proof.
  assert (Hargs : is_Some (({[ "property_html" := VStr "square feet";
                               "propertyid" := VInt 2 ]} : dict) !! "property_html")
                  \/ is_Some (({[ "property_html" := VStr "square feet";
                                  "propertyid" := VInt 2 ]} : dict) !! "propertyid"))
    by (left; eexists; reflexivity).
  assert (Hreturn : snd (extractRealPropertyData Sample.world_ 0
                           {[ "property_html" := VStr "square feet"; "propertyid" := VInt 2 ]}
                           (fresh, quiet)) = Return VNone)
    by (vm_compute; reflexivity).
  split; [exact Hargs|]. split; [exact Hreturn|].
  exact (proj1 (a_run_that_returns_has_assigned_the_fields Sample.world_ 0 _ fresh quiet VNone
                  Hargs Hreturn)).
Defined.

End MoreInstances.
